(** * Attention State Engine: camera-based drowsiness detection

    A shallow embedding of the frame handler of [src/cameraDetector.ts]
    (content-script host) and of the offscreen document, which carries a
    second copy of the same functions.  The two copies of
    [determineAttentionState], [handleLandmarks], [triggerDrowsinessAlert]
    and [sendAttentionUpdate] differ only in the text they log, so one
    embedding stands for both; the two functions that stop the detector
    differ in one assignment and are both embedded.

    Conventions of the embedding:
    - a JS [number] is a binary64 float ([PrimFloat.float]); [a >= b] is
      [b <=? a], [a < b] is [a <? b], both false as soon as a NaN is involved;
    - the module-level [let] variables are the fields of [World];
    - [Date.now()] reads a clock (a function of the number of readings made
      so far), so two readings in one frame may differ;
    - [chrome.runtime.sendMessage] appends to the output of the computation;
    - [console.log] / [console.error] are not modelled;
    - [await getAttentionSettings()] is the settings snapshot that comes
      with the frame; frames are handled one at a time, to completion. *)

From Stdlib Require Import List Bool Arith PeanoNat Lia ZArith.
From Stdlib Require Import Floats.
From Stdlib Require String.
Import ListNotations.
Import String.StringSyntax.

Set Warnings "-inexact-float".

Local Open Scope float_scope.
Local Open Scope nat_scope.

(** ** Data model ([./shared/types], declarations only) *)

Inductive AttentionState : Type :=
| Awake        (* "awake" *)
| Drowsy       (* "drowsy" *)
| Microsleep.  (* "microsleep" *)

Definition AttentionState_eqb (a b : AttentionState) : bool :=
  match a, b with
  | Awake, Awake | Drowsy, Drowsy | Microsleep, Microsleep => true
  | _, _ => false
  end.

Record Thresholds : Type := mkThresholds {
  earThreshold : float;
  drowsySeconds : float;
  microsleepSeconds : float
}.

Record Detectors : Type := mkDetectors {
  microsleep : bool;
  drowsiness : bool
}.

Record AttentionSettings : Type := mkSettings {
  enabled : bool;
  thresholds : Thresholds;
  detectors : Detectors
}.

Record FaceLandmarks : Type := mkLandmarks {
  leftEyeEAR : float;
  rightEyeEAR : float
}.

(** Messages handed to [chrome.runtime.sendMessage]. *)
Inductive Message : Type :=
| DROWSINESS_DETECTED (state : AttentionState) (confidence : float)
                      (eyesClosedDuration : float)
| ATTENTION_UPDATE (state : AttentionState) (confidence : float)
                   (earValue : float) (eyesClosedDuration : float)
                   (timestamp : float).

Definition is_alert (m : Message) : bool :=
  match m with DROWSINESS_DETECTED _ _ _ => true | _ => false end.

Definition is_update (m : Message) : bool :=
  match m with ATTENTION_UPDATE _ _ _ _ _ => true | _ => false end.

Definition alerts (ms : list Message) : list Message := filter is_alert ms.
Definition updates (ms : list Message) : list Message := filter is_update ms.

Definition msg_state (m : Message) : AttentionState :=
  match m with
  | DROWSINESS_DETECTED st _ _ => st
  | ATTENTION_UPDATE st _ _ _ _ => st
  end.

Definition msg_confidence (m : Message) : float :=
  match m with
  | DROWSINESS_DETECTED _ c _ => c
  | ATTENTION_UPDATE _ c _ _ _ => c
  end.

Definition msg_duration (m : Message) : float :=
  match m with
  | DROWSINESS_DETECTED _ _ d => d
  | ATTENTION_UPDATE _ _ _ d _ => d
  end.

(** The module-level variables, and the number of clock readings so far. *)
Record World : Type := mkWorld {
  eyesClosedStartTime : option float;     (* number | null *)
  currentAttentionState : AttentionState;
  closedFrameCount : nat;
  frameCount : nat;
  lastLogTime : float;
  ticks : nat
}.

Definition MIN_CLOSED_FRAMES : nat := 15.

(** ** JavaScript numbers *)

(** [a >= b] *)
Definition geb (a b : float) : bool := (b <=? a)%float.

(** ToNumber on [number | null]: [null] converts to [+0]. *)
Definition ToNumber (x : option float) : float :=
  match x with Some t => t | None => 0%float end.

(** [x === null] *)
Definition is_null (x : option float) : bool :=
  match x with None => true | Some _ => false end.

(** ToBoolean on [number | null]: [null], [0], [-0] and NaN are falsy. *)
Definition truthy (x : option float) : bool :=
  match x with
  | Some t => negb (PrimFloat.is_nan t) && negb (t =? 0)%float
  | None => false
  end.

(** Modelled from the spec: [computeAverageEAR] of [./attention/ear], which is
    imported by the detector and not part of the sources at hand; section 4.1
    gives it as the arithmetic mean of the two per-eye values. *)
Definition computeAverageEAR (l r : float) : float := ((l + r) / 2)%float.

(** ** The effect monad: state, clock and outgoing messages *)

Section Engine.

(** [clock k] is what the [k]-th call of [Date.now()] returns. *)
Variable clock : nat -> float.

Definition M (A : Type) : Type := World -> A * World * list Message.

Definition ret {A : Type} (a : A) : M A := fun w => (a, w, []).

Definition bind {A B : Type} (m : M A) (k : A -> M B) : M B :=
  fun w =>
    let r1 := m w in
    let r2 := k (fst (fst r1)) (snd (fst r1)) in
    (fst (fst r2), snd (fst r2), snd r1 ++ snd r2).

Notation "x <- m ;; k" := (bind m (fun x => k))
  (at level 61, m at next level, right associativity).
Notation "m ;;; k" := (bind m (fun _ => k))
  (at level 61, right associativity).

Definition gets {A : Type} (f : World -> A) : M A := fun w => (f w, w, []).
Definition modify (f : World -> World) : M unit := fun w => (tt, f w, []).
Definition sendMessage (m : Message) : M unit := fun w => (tt, w, [m]).

Definition Date_now : M float :=
  fun w =>
    (clock (ticks w),
     mkWorld (eyesClosedStartTime w) (currentAttentionState w)
             (closedFrameCount w) (frameCount w) (lastLogTime w)
             (S (ticks w)),
     []).

Definition set_eyesClosedStartTime (v : option float) (w : World) : World :=
  mkWorld v (currentAttentionState w) (closedFrameCount w)
          (frameCount w) (lastLogTime w) (ticks w).

Definition set_currentAttentionState (v : AttentionState) (w : World) : World :=
  mkWorld (eyesClosedStartTime w) v (closedFrameCount w)
          (frameCount w) (lastLogTime w) (ticks w).

Definition set_closedFrameCount (v : nat) (w : World) : World :=
  mkWorld (eyesClosedStartTime w) (currentAttentionState w) v
          (frameCount w) (lastLogTime w) (ticks w).

Definition set_frameCount (v : nat) (w : World) : World :=
  mkWorld (eyesClosedStartTime w) (currentAttentionState w)
          (closedFrameCount w) v (lastLogTime w) (ticks w).

Definition set_lastLogTime (v : float) (w : World) : World :=
  mkWorld (eyesClosedStartTime w) (currentAttentionState w)
          (closedFrameCount w) (frameCount w) v (ticks w).

(** [if (c) { body }] with no else branch. *)
Definition when (c : bool) (body : M unit) : M unit :=
  if c then body else ret tt.

(** [closedFrameCount++] *)
Definition incr_closedFrameCount : M unit :=
  modify (fun w => set_closedFrameCount (S (closedFrameCount w)) w).

(** [if (eyesClosedStartTime === null) { eyesClosedStartTime = t; }] *)
Definition latch (t : float) : M unit :=
  s <- gets eyesClosedStartTime ;;
  when (is_null s) (modify (set_eyesClosedStartTime (Some t))).

(** ** determineAttentionState *)

Definition determineAttentionState (ear : float) (settings : AttentionSettings)
  : M AttentionState :=
  now <- Date_now ;;
  if (ear <? earThreshold (thresholds settings))%float then
    incr_closedFrameCount ;;;
    c <- gets closedFrameCount ;;
    if MIN_CLOSED_FRAMES <=? c then
      latch now ;;;
      s <- gets eyesClosedStartTime ;;
      let closedDuration := ((now - ToNumber s) / 1000)%float in
      if microsleep (detectors settings)
         && geb closedDuration (microsleepSeconds (thresholds settings))
      then ret Microsleep
      else if drowsiness (detectors settings)
              && geb closedDuration (drowsySeconds (thresholds settings))
      then ret Drowsy
      else ret Awake
    else ret Awake
  else
    modify (set_closedFrameCount 0) ;;;
    modify (set_eyesClosedStartTime None) ;;;
    ret Awake.

(** ** triggerDrowsinessAlert and sendAttentionUpdate *)

Definition triggerDrowsinessAlert (state : AttentionState) (confidence : float)
  (duration : float) : M unit :=
  sendMessage (DROWSINESS_DETECTED state confidence duration).

(** [eyesClosedStartTime ? (Date.now() - eyesClosedStartTime) / 1000 : 0] *)
Definition closedDurationOrZero : M float :=
  s <- gets eyesClosedStartTime ;;
  if truthy s then
    now <- Date_now ;;
    ret ((now - ToNumber s) / 1000)%float
  else ret 0%float.

Definition sendAttentionUpdate (state : AttentionState) (ear : float) : M unit :=
  d <- closedDurationOrZero ;;
  timestamp <- Date_now ;;
  sendMessage (ATTENTION_UPDATE state 0.85%float ear d timestamp).

(** ** handleLandmarks *)

(** The frame counter and the once-in-30-frames rate log, which reads the
    clock; this part runs before the settings are awaited. *)
Definition countFrame : M unit :=
  modify (fun w => set_frameCount (S (frameCount w)) w) ;;;
  fc <- gets frameCount ;;
  when (fc mod 30 =? 0)
       (now <- Date_now ;; modify (set_lastLogTime now)).

(** The world once the frame has been counted. *)
Definition counted (w : World) : World := snd (fst (countFrame w)).

(** The [if (!landmarks) { ...; return; }] branch. *)
Definition noFace (settings : AttentionSettings) : M unit :=
  incr_closedFrameCount ;;;
  c <- gets closedFrameCount ;;
  when (MIN_CLOSED_FRAMES <=? c)
    (s0 <- gets eyesClosedStartTime ;;
     when (is_null s0)
          (t <- Date_now ;; modify (set_eyesClosedStartTime (Some t))) ;;;
     now <- Date_now ;;
     s <- gets eyesClosedStartTime ;;
     let closedDuration := ((now - ToNumber s) / 1000)%float in
     cur <- gets currentAttentionState ;;
     if geb closedDuration (microsleepSeconds (thresholds settings)) then
       when (negb (AttentionState_eqb cur Microsleep))
            (modify (set_currentAttentionState Microsleep) ;;;
             triggerDrowsinessAlert Microsleep 0.99%float closedDuration)
     else if geb closedDuration (drowsySeconds (thresholds settings)) then
       when (negb (AttentionState_eqb cur Drowsy))
            (modify (set_currentAttentionState Drowsy) ;;;
             triggerDrowsinessAlert Drowsy 0.94%float closedDuration)
     else ret tt).

(** The part of [handleLandmarks] that follows the no-face branch. *)
Definition withFace (landmarks : FaceLandmarks) (settings : AttentionSettings)
  : M unit :=
  let ear := computeAverageEAR (leftEyeEAR landmarks) (rightEyeEAR landmarks) in
  newState <- determineAttentionState ear settings ;;
  cur <- gets currentAttentionState ;;
  when (negb (AttentionState_eqb newState cur)
        && (AttentionState_eqb newState Drowsy
            || AttentionState_eqb newState Microsleep))
       (d <- closedDurationOrZero ;;
        triggerDrowsinessAlert newState
          (1.0 - ear / earThreshold (thresholds settings))%float d) ;;;
  modify (set_currentAttentionState newState) ;;;
  cur' <- gets currentAttentionState ;;
  sendAttentionUpdate cur' ear.

Definition handleLandmarks (landmarks : option FaceLandmarks)
  (settings : AttentionSettings) : M unit :=
  countFrame ;;;
  if negb (enabled settings) then ret tt
  else match landmarks with
       | None => noFace settings
       | Some lm => withFace lm settings
       end.

(** ** shutdownCameraDetection (content script) and stopDetection (offscreen) *)

Definition shutdownCameraDetection : M unit :=
  modify (set_eyesClosedStartTime None) ;;;
  modify (set_currentAttentionState Awake) ;;;
  modify (set_closedFrameCount 0).

Definition stopDetection : M unit :=
  shutdownCameraDetection ;;;
  modify (set_frameCount 0).

(** ** Frames and runs *)

Record Frame : Type := mkFrame {
  landmarks : option FaceLandmarks;
  settings : AttentionSettings
}.

(** State of the module once it is loaded: [lastLogTime = Date.now()] is the
    first reading of the clock. *)
Definition initial : World := mkWorld None Awake 0 0 (clock 0) 1.

Definition exec (f : Frame) (w : World) : World :=
  snd (fst (handleLandmarks (landmarks f) (settings f) w)).

Definition emitted (f : Frame) (w : World) : list Message :=
  snd (handleLandmarks (landmarks f) (settings f) w).

Fixpoint run (fs : list Frame) (w : World) : World :=
  match fs with
  | [] => w
  | f :: fs' => run fs' (exec f w)
  end.

Fixpoint trace (fs : list Frame) (w : World) : list Message :=
  match fs with
  | [] => []
  | f :: fs' => emitted f w ++ trace fs' (exec f w)
  end.

Definition reachable (w : World) : Prop := exists fs, w = run fs initial.

End Engine.

(** ** Vocabulary of the specification *)

(** AverageEAR of a detected frame. *)
Definition averageEAR (lm : FaceLandmarks) : float :=
  computeAverageEAR (leftEyeEAR lm) (rightEyeEAR lm).

(** A frame is processed when the master flag of its settings is set. *)
Definition processed (f : Frame) : bool := enabled (settings f).

(** "Counted closed this frame": no face, or AverageEAR below [earThreshold]. *)
Definition countedClosed (f : Frame) : bool :=
  match landmarks f with
  | None => true
  | Some lm => (averageEAR lm <? earThreshold (thresholds (settings f)))%float
  end.

Definition elevated (st : AttentionState) : bool :=
  match st with Awake => false | Drowsy | Microsleep => true end.

(** Length of the longest prefix of [l] whose elements all satisfy [p]. *)
Fixpoint leading {A : Type} (p : A -> bool) (l : list A) : nat :=
  match l with
  | [] => 0
  | x :: l' => if p x then S (leading p l') else 0
  end.

(** Number of processed frames at the end of [fs] that were all counted
    closed: the closure streak in progress after [fs]. *)
Definition closedStreak (fs : list Frame) : nat :=
  leading countedClosed (rev (filter processed fs)).

(** The value [eyesClosedStartTime] has after a frame counted closed, when a
    reading [t] of the clock is at hand for latching. *)
Definition latched (w : World) (t : float) : option float :=
  if MIN_CLOSED_FRAMES <=? S (closedFrameCount w)
  then Some (match eyesClosedStartTime w with Some t0 => t0 | None => t end)
  else eyesClosedStartTime w.

(** The debounce invariant: the timestamp is set exactly when the streak has
    filled the debounce window, and the state is Awake before that. *)
Definition tracking_inv (w : World) : Prop :=
  (eyesClosedStartTime w <> None <-> MIN_CLOSED_FRAMES <= closedFrameCount w) /\
  (closedFrameCount w < MIN_CLOSED_FRAMES -> currentAttentionState w = Awake).

(** A message that reports nothing: an update, in state Awake, with a closed
    duration of 0. *)
Definition quiet (m : Message) : Prop :=
  is_update m = true /\ msg_state m = Awake /\ msg_duration m = 0%float.

(** ** Concrete inputs *)

Module Sample.

(** A clock whose successive readings are one second apart (in ms). *)
Definition clock (k : nat) : float :=
  (1700000000000 + 1000 * of_uint63 (Uint63.of_Z (Z.of_nat k)))%float.

(** The thresholds of the scenario of section 8 of the specification. *)
Definition limits : Thresholds := mkThresholds 0.2 2 5.

Definition config (micro drowsy : bool) : AttentionSettings :=
  mkSettings true limits (mkDetectors micro drowsy).

Definition face (ear : float) (s : AttentionSettings) : Frame :=
  mkFrame (Some (mkLandmarks ear ear)) s.

Definition noface (s : AttentionSettings) : Frame := mkFrame None s.

Definition start : World := initial clock.

(** Both detectors on, and both off. *)
Definition armed : AttentionSettings := config true true.
Definition disarmed : AttentionSettings := config false false.

(** Nineteen frames with the eyes closed (EAR 0.1): the engine is in
    Microsleep. *)
Definition asleep : World := run clock (repeat (face 0.1 armed) 19) start.

(** Sixteen frames with an EAR of -0.1: the engine is in Drowsy. *)
Definition dozing : World := run clock (repeat (face (-0.1) armed) 16) start.

(** Eighteen frames without a face, both detectors off. *)
Definition unseen : World := run clock (repeat (noface disarmed) 18) start.

(** A blink: ten frames below the threshold, then the eyes open. *)
Definition blink : list Frame := repeat (face 0.1 armed) 10.

End Sample.

(** * Tracking settings and the life cycle of the detector

    The rest of the two hosts and [src/trackingSettings.ts].  The browser is
    an oracle: each operation is given the answers the browser would give to
    the calls it makes ([Browser]), and what it does to the browser is listed
    in the order it does it ([Effect]).  In [Offscreen] and [ContentScript]
    an [async] function is run to its end before the next one starts; in
    [OffscreenTurns] and [ContentTurns] it is cut at its awaits, and calls
    overlap. *)

(** ** JavaScript values, as far as the settings need them *)

#[warnings="-register-all"]
Inductive JsValue : Type :=
| JUndefined
| JNull
| JBool (b : bool)
| JNumber (x : float)
| JString (s : String.string)
| JObject (fields : list (String.string * JsValue)).

(** ToBoolean. *)
Definition ToBoolean (v : JsValue) : bool :=
  match v with
  | JUndefined | JNull => false
  | JBool b => b
  | JNumber x => negb (PrimFloat.is_nan x) && negb (x =? 0)%float
  | JString s => match s with String.EmptyString => false | _ => true end
  | JObject _ => true
  end.

(** [a || b] *)
Definition js_or (a b : JsValue) : JsValue := if ToBoolean a then a else b.

Fixpoint field (name : String.string) (fields : list (String.string * JsValue))
  : JsValue :=
  match fields with
  | [] => JUndefined
  | (k, v) :: rest => if String.eqb k name then v else field name rest
  end.

(** What is thrown: an [Error] with its message, or the TypeError of a
    property read on [undefined] or [null]. *)
Inductive Exception : Type :=
| Error (message : String.string)
| TypeError.

Inductive Result (A : Type) : Type :=
| Ok (a : A)
| Thrown (e : Exception).

Arguments Ok {A} a.
Arguments Thrown {A} e.

(** [v.name], for a name that no prototype defines. *)
Definition getProp (v : JsValue) (name : String.string) : Result JsValue :=
  match v with
  | JUndefined | JNull => Thrown TypeError
  | JObject fields => Ok (field name fields)
  | JBool _ | JNumber _ | JString _ => Ok JUndefined
  end.

(** ** chrome.storage.local and trackingSettings.ts *)

(** The items of [chrome.storage.local], by key. *)
Definition Storage : Type := String.string -> option JsValue.

(** [(await chrome.storage.local.get(key))[key]] *)
Definition storage_get (key : String.string) (st : Storage) : JsValue :=
  match st key with Some v => v | None => JUndefined end.

(** [await chrome.storage.local.set({ [key]: v })] *)
Definition storage_set (key : String.string) (v : JsValue) (st : Storage)
  : Storage :=
  fun k => if String.eqb k key then Some v else st k.

Record TrackingSettings : Type := mkTracking {
  webTrackingEnabled : bool;
  cameraTrackingEnabled : bool
}.

Local Open Scope string_scope.

(** A [TrackingSettings] object as a JavaScript value. *)
Definition trackingObject (t : TrackingSettings) : JsValue :=
  JObject [("webTrackingEnabled", JBool (webTrackingEnabled t));
           ("cameraTrackingEnabled", JBool (cameraTrackingEnabled t))].

Definition SETTINGS_KEY : String.string := "trackingSettings".

Definition DEFAULT_SETTINGS : TrackingSettings := mkTracking true false.

Definition getTrackingSettings (st : Storage) : JsValue :=
  js_or (storage_get SETTINGS_KEY st) (trackingObject DEFAULT_SETTINGS).

Definition saveTrackingSettings (settings : TrackingSettings) (st : Storage)
  : Storage :=
  storage_set SETTINGS_KEY (trackingObject settings) st.

(** [v.cameraTrackingEnabled], as a condition. *)
Definition wantsCamera (v : JsValue) : Result bool :=
  match getProp v "cameraTrackingEnabled" with
  | Ok x => Ok (ToBoolean x)
  | Thrown e => Thrown e
  end.

Local Close Scope string_scope.

(** ** The browser *)

(** A [MediaStream], by identity. *)
Definition MediaStream : Type := nat.

(** A [<video>] element made by [document.createElement]. *)
Record Video : Type := mkVideo { srcObject : MediaStream }.

(** The function returned by [startFaceTracking(videoElement, handleLandmarks,
    30)], which stops the tracking it started. *)
Record Tracker : Type := mkTracker { tracked : Video }.

(** The answers of the browser to the calls of one operation. *)
Record Browser : Type := mkBrowser {
  getUserMedia : Result MediaStream;   (* navigator.mediaDevices.getUserMedia *)
  play : Result unit;                  (* videoElement.play() *)
  startFaceTracking : Result unit;     (* throws, or returns the stop function *)
  streamActive : bool;                 (* stream.active *)
  bodyContains : bool;                 (* document.body.contains(videoElement) *)
  storageLocal : Storage               (* chrome.storage.local *)
}.

(** The argument of [sendResponse]. *)
Inductive Response : Type :=
| Success                                        (* { success: true } *)
| Failure (error : Exception)                    (* { success: false, error: error.message } *)
| Status (isRunning : bool) (frameCount : nat).  (* { isRunning, frameCount } *)

Inductive Effect : Type :=
| RequestedCamera                  (* getUserMedia called *)
| AppendedVideo (v : Video)        (* element created, given its stream, appended to the body *)
| PlayRequested (v : Video)        (* v.play() called *)
| StoppedTracks (s : MediaStream)  (* every track of s stopped *)
| RemovedVideo (v : Video)         (* v.remove() *)
| StartedTracking (v : Video)      (* startFaceTracking called on v *)
| StoppedTracking (t : Tracker)    (* the stop function called *)
| SentReady                        (* sendMessage({ type: "CAMERA_DETECTION_READY" }) *)
| Sent (m : Message)               (* a message of the frame handler *)
| Responded (r : Response).        (* sendResponse *)

(** The two module variables of the camera. *)
Record Camera : Type := mkCamera {
  stream : option MediaStream;
  videoElement : option Video
}.

(** ** Computations that change a state, act on the browser and may throw *)

Definition L (S A : Type) : Type := S -> Result A * S * list Effect.

Definition lret {S A : Type} (a : A) : L S A := fun s => (Ok a, s, []).

Definition throw {S A : Type} (e : Exception) : L S A :=
  fun s => (Thrown e, s, []).

Definition lbind {S A B : Type} (m : L S A) (k : A -> L S B) : L S B :=
  fun s =>
    match m s with
    | (Ok a, s1, o1) =>
        match k a s1 with (r, s2, o2) => (r, s2, o1 ++ o2) end
    | (Thrown e, s1, o1) => (Thrown e, s1, o1)
    end.

(** [try { m } catch (error) { handler error }] *)
Definition try_catch {S A : Type} (m : L S A) (handler : Exception -> L S A)
  : L S A :=
  fun s =>
    match m s with
    | (Ok a, s1, o1) => (Ok a, s1, o1)
    | (Thrown e, s1, o1) =>
        match handler e s1 with (r, s2, o2) => (r, s2, o1 ++ o2) end
    end.

(** [await p], or a call that may throw. *)
Definition await {S A : Type} (p : Result A) : L S A :=
  match p with Ok a => lret a | Thrown e => throw e end.

Definition perform {S : Type} (e : Effect) : L S unit :=
  fun s => (Ok tt, s, [e]).

Definition lget {S : Type} : L S S := fun s => (Ok s, s, []).

Definition lmodify {S : Type} (f : S -> S) : L S unit :=
  fun s => (Ok tt, f s, []).

(** A computation on a part of the state. *)
Definition within {S P A : Type} (get : S -> P) (set : P -> S -> S)
  (m : L P A) : L S A :=
  fun s => match m (get s) with (r, p, o) => (r, set p s, o) end.

(** A computation of the frame handler, which does not throw. *)
Definition onWorld {S A : Type} (get : S -> World) (set : World -> S -> S)
  (m : M A) : L S A :=
  fun s => match m (get s) with (a, w, ms) => (Ok a, set w s, map Sent ms) end.

Notation "x <~ m ;; k" := (lbind m (fun x => k))
  (at level 61, m at next level, right associativity).
Notation "m ;;, k" := (lbind m (fun _ => k))
  (at level 61, right associativity).

(** ** stopCamera, the same in both hosts *)

Definition stopCamera : L Camera unit :=
  c <~ lget ;;
  match stream c with
  | Some s =>
      perform (StoppedTracks s) ;;,
      lmodify (fun c => mkCamera None (videoElement c))
  | None => lret tt
  end ;;,
  c <~ lget ;;
  match videoElement c with
  | Some v =>
      perform (RemovedVideo v) ;;,
      lmodify (fun c => mkCamera (stream c) None)
  | None => lret tt
  end.

(** The hidden video element: created, given the stream, appended, played. *)
Definition showStream (b : Browser) (s : MediaStream) : L Camera unit :=
  lmodify (fun c => mkCamera (stream c) (Some (mkVideo s))) ;;,
  perform (AppendedVideo (mkVideo s)) ;;,
  perform (PlayRequested (mkVideo s)) ;;,
  await (play b).

(** A new stream from the camera, and its video element. *)
Definition openCamera (b : Browser) : L Camera unit :=
  perform RequestedCamera ;;,
  s <~ await (getUserMedia b) ;;
  lmodify (fun c => mkCamera (Some s) (videoElement c)) ;;,
  showStream b s.

(** The assignments under "Reset state" of the two functions that stop the
    detector, as embedded with the frame handler. *)
Definition resetOnShutdown : M unit := shutdownCameraDetection.
Definition resetOnStop : M unit := stopDetection.

(** The stream and its video element go together. *)
Definition paired (c : Camera) : Prop :=
  match stream c, videoElement c with
  | None, None => True
  | Some s, Some v => v = mkVideo s
  | _, _ => False
  end.

(** What releasing a resource that may be held does. *)
Definition released {A : Type} (e : A -> Effect) (x : option A) : list Effect :=
  match x with Some a => [e a] | None => [] end.

Definition is_response (e : Effect) : bool :=
  match e with Responded _ => true | _ => false end.

Definition responses (o : list Effect) : list Effect := filter is_response o.

Local Open Scope string_scope.

(** ** The offscreen document *)

Module Offscreen.

Record State : Type := mkState {
  world : World;                      (* the variables of the frame handler *)
  camera : Camera;
  stopTracking : option Tracker;      (* (() => void) | null *)
  isRunning : bool
}.

Definition set_world (w : World) (st : State) : State :=
  mkState w (camera st) (stopTracking st) (isRunning st).

Definition set_camera (c : Camera) (st : State) : State :=
  mkState (world st) c (stopTracking st) (isRunning st).

Definition set_stopTracking (t : option Tracker) (st : State) : State :=
  mkState (world st) (camera st) t (isRunning st).

Definition set_isRunning (r : bool) (st : State) : State :=
  mkState (world st) (camera st) (stopTracking st) r.

Definition startCamera (b : Browser) : L Camera unit :=
  try_catch (openCamera b) (fun error => throw error).

Definition startDetection (b : Browser) : L State unit :=
  st <~ lget ;;
  if isRunning st then lret tt
  else
    try_catch
      (within camera set_camera (startCamera b) ;;,
       st <~ lget ;;
       match videoElement (camera st) with
       | None => throw (Error "Video element not created")
       | Some v =>
           perform (StartedTracking v) ;;,
           await (startFaceTracking b) ;;,
           lmodify (set_stopTracking (Some (mkTracker v))) ;;,
           lmodify (set_isRunning true) ;;,
           perform SentReady
       end)
      (fun error => throw error).

Definition stopDetection : L State unit :=
  st <~ lget ;;
  if negb (isRunning st) then lret tt
  else
    match stopTracking st with
    | Some t =>
        perform (StoppedTracking t) ;;,
        lmodify (set_stopTracking None)
    | None => lret tt
    end ;;,
    within camera set_camera stopCamera ;;,
    lmodify (set_isRunning false) ;;,
    onWorld world set_world resetOnStop.

(** The listener of [chrome.runtime.onMessage]; the result is what it
    returns, as a condition. *)
Definition onMessage (type : String.string) (b : Browser) : L State bool :=
  if String.eqb type "START_CAMERA_DETECTION" then
    try_catch (startDetection b ;;, perform (Responded Success))
              (fun error => perform (Responded (Failure error))) ;;,
    lret true
  else if String.eqb type "STOP_CAMERA_DETECTION" then
    stopDetection ;;,
    perform (Responded Success) ;;,
    lret true
  else if String.eqb type "GET_CAMERA_STATUS" then
    st <~ lget ;;
    perform (Responded (Status (isRunning st) (frameCount (world st)))) ;;,
    lret true
  else lret false.

(** What reaches the document: a message, with the browser of that moment,
    or a frame from the face tracker. *)
Inductive Event : Type :=
| Incoming (type : String.string) (b : Browser)
| Landmarks (f : Frame).

Definition step (clock : nat -> float) (e : Event) (st : State)
  : State * list Effect :=
  match e with
  | Incoming type b =>
      match onMessage type b st with (_, st', o) => (st', o) end
  | Landmarks f =>
      (set_world (exec clock f (world st)) st,
       map Sent (emitted clock f (world st)))
  end.

Fixpoint steps (clock : nat -> float) (es : list Event) (st : State) : State :=
  match es with
  | [] => st
  | e :: es' => steps clock es' (fst (step clock e st))
  end.

(** The document as it is loaded. *)
Definition loaded (clock : nat -> float) : State :=
  mkState (initial clock) (mkCamera None None) None false.

Definition is_stop (e : Event) : bool :=
  match e with
  | Incoming type _ => String.eqb type "STOP_CAMERA_DETECTION"
  | Landmarks _ => false
  end.

Definition is_frame (e : Event) : bool :=
  match e with Landmarks _ => true | Incoming _ _ => false end.

End Offscreen.

(** ** The content script *)

Module ContentScript.

Record State : Type := mkState {
  world : World;
  camera : Camera;
  stopTracking : option Tracker;
  isInitialized : bool
}.

Definition set_world (w : World) (st : State) : State :=
  mkState w (camera st) (stopTracking st) (isInitialized st).

Definition set_camera (c : Camera) (st : State) : State :=
  mkState (world st) c (stopTracking st) (isInitialized st).

Definition set_stopTracking (t : option Tracker) (st : State) : State :=
  mkState (world st) (camera st) t (isInitialized st).

Definition set_isInitialized (r : bool) (st : State) : State :=
  mkState (world st) (camera st) (stopTracking st) r.

(** An active stream is used again; the video element is made again when
    it is missing or no longer in the document. *)
Definition startCamera (b : Browser) : L Camera unit :=
  try_catch
    (c <~ lget ;;
     match stream c with
     | Some s =>
         if streamActive b then
           match videoElement c with
           | Some _ => if bodyContains b then lret tt else showStream b s
           | None => showStream b s
           end
         else openCamera b
     | None => openCamera b
     end)
    (fun error => throw error).

Definition initCameraDetection (b : Browser) : L State unit :=
  st <~ lget ;;
  if isInitialized st then lret tt
  else
    try_catch
      (enabled <~ await (wantsCamera (getTrackingSettings (storageLocal b))) ;;
       if negb enabled then lret tt
       else
         within camera set_camera (startCamera b) ;;,
         st <~ lget ;;
         match videoElement (camera st) with
         | None => throw (Error "Video element not created")
         | Some v =>
             try_catch
               (perform (StartedTracking v) ;;,
                await (startFaceTracking b) ;;,
                lmodify (set_stopTracking (Some (mkTracker v))) ;;,
                lmodify (set_isInitialized true))
               (fun mediapipeError =>
                  within camera set_camera stopCamera ;;,
                  throw (Error "MediaPipe blocked by CSP - camera detection unavailable on this page"))
         end)
      (fun error => throw error).

Definition shutdownCameraDetection : L State unit :=
  st <~ lget ;;
  match stopTracking st with
  | Some t =>
      perform (StoppedTracking t) ;;,
      lmodify (set_stopTracking None)
  | None => lret tt
  end ;;,
  within camera set_camera stopCamera ;;,
  lmodify (set_isInitialized false) ;;,
  onWorld world set_world resetOnShutdown.

(** A promise that nobody awaits: its rejection does not reach the caller. *)
Definition detached {S : Type} (m : L S unit) : L S unit :=
  try_catch m (fun _ => lret tt).

(** The listener of [chrome.runtime.onMessage]. *)
Definition onMessage (type : String.string) (payload : JsValue) (b : Browser)
  : L State unit :=
  if String.eqb type "TRACKING_SETTINGS_UPDATED" then
    enabled <~ await (wantsCamera payload) ;;
    st <~ lget ;;
    if enabled && negb (isInitialized st) then
      detached (initCameraDetection b)
    else if negb enabled && isInitialized st then
      shutdownCameraDetection
    else lret tt
  else lret tt.

(** The script as it is loaded. *)
Definition loaded (clock : nat -> float) : State :=
  mkState (initial clock) (mkCamera None None) None false.

Definition CSP_MESSAGE : String.string :=
  "MediaPipe blocked by CSP - camera detection unavailable on this page".

End ContentScript.

(** ** Turns of the event loop

    [startDetection], [initCameraDetection] and [handleLandmarks] are
    [async]: a call runs until its next [await], and whatever else is pending
    may run before it goes on.  Here each of them is cut at its awaits into
    turns.  A call that waits is a task in the list of pending tasks; the
    browser settles a pending task, of its choice, with an answer of its
    choice, and the call goes on to its next await or to its end.  The turns
    may come in any order.  A turn that names no pending task of the right
    kind does nothing.

    What lies between the settling of an await and the next statement that
    reads or writes a module variable touches none of them ([startCamera]
    logging and returning to its caller, a [catch] that throws again, the
    [then] and [catch] of the listener that answer the message), so it is
    run in the same turn.  The browser is not held to anything: a frame may
    come when no tracker runs, a timer may fire at any time, and any answer
    may follow any request. *)

(** Takes the [i]-th task out of the pending ones. *)
Fixpoint take {A : Type} (i : nat) (l : list A) : option (A * list A) :=
  match l, i with
  | [], _ => None
  | x :: l', 0 => Some (x, l')
  | x :: l', S j =>
      match take j l' with
      | Some (y, r) => Some (y, x :: r)
      | None => None
      end
  end.

(** [handleLandmarks] from the point where [await getAttentionSettings()]
    has settled; a rejection is caught and logged. *)
Definition handleSettled (clock : nat -> float)
  (landmarks : option FaceLandmarks) (settings : Result AttentionSettings)
  : M unit :=
  match settings with
  | Thrown _ => ret tt
  | Ok s =>
      if negb (enabled s) then ret tt
      else match landmarks with
           | None => noFace clock s
           | Some lm => withFace clock lm s
           end
  end.

Module OffscreenTurns.

Inductive Task : Type :=
| StartAwaitsCamera   (* startDetection, at [await getUserMedia] in startCamera *)
| StartAwaitsPlay     (* startDetection, at [await videoElement.play()] *)
| FrameAwaitsSettings (landmarks : option FaceLandmarks).
                      (* handleLandmarks, at [await getAttentionSettings()] *)

Record Doc : Type := mkDoc {
  vars : Offscreen.State;
  pending : list Task
}.

Inductive Turn : Type :=
| Message (type : String.string)
| Frame (landmarks : option FaceLandmarks)
| CameraSettles (i : nat) (r : Result MediaStream)
| PlaySettles (i : nat) (r : Result unit) (tracking : Result unit)
    (* [tracking]: what startFaceTracking does when the call gets there *)
| SettingsSettle (i : nat) (r : Result AttentionSettings).

Definition turn (clock : nat -> float) (t : Turn) (d : Doc)
  : Doc * list Effect :=
  let st := vars d in
  match t with
  | Message type =>
      if String.eqb type "START_CAMERA_DETECTION" then
        if Offscreen.isRunning st then (d, [Responded Success])
        else (mkDoc st (pending d ++ [StartAwaitsCamera]), [RequestedCamera])
      else if String.eqb type "STOP_CAMERA_DETECTION" then
        match Offscreen.stopDetection st with
        | (_, st', o) => (mkDoc st' (pending d), o ++ [Responded Success])
        end
      else if String.eqb type "GET_CAMERA_STATUS" then
        (d, [Responded (Status (Offscreen.isRunning st)
                          (frameCount (Offscreen.world st)))])
      else (d, [])
  | Frame lm =>
      (mkDoc (Offscreen.set_world (counted clock (Offscreen.world st)) st)
             (pending d ++ [FrameAwaitsSettings lm]),
       [])
  | CameraSettles i r =>
      match take i (pending d) with
      | Some (StartAwaitsCamera, rest) =>
          match r with
          | Ok s =>
              (mkDoc (Offscreen.set_camera
                        (mkCamera (Some s) (Some (mkVideo s))) st)
                     (rest ++ [StartAwaitsPlay]),
               [AppendedVideo (mkVideo s); PlayRequested (mkVideo s)])
          | Thrown e => (mkDoc st rest, [Responded (Failure e)])
          end
      | _ => (d, [])
      end
  | PlaySettles i r tracking =>
      match take i (pending d) with
      | Some (StartAwaitsPlay, rest) =>
          match r with
          | Thrown e => (mkDoc st rest, [Responded (Failure e)])
          | Ok _ =>
              match videoElement (Offscreen.camera st) with
              | None =>
                  (mkDoc st rest,
                   [Responded (Failure (Error "Video element not created"))])
              | Some v =>
                  match tracking with
                  | Thrown e =>
                      (mkDoc st rest,
                       [StartedTracking v; Responded (Failure e)])
                  | Ok _ =>
                      (mkDoc (Offscreen.set_isRunning true
                                (Offscreen.set_stopTracking
                                   (Some (mkTracker v)) st))
                             rest,
                       [StartedTracking v; SentReady; Responded Success])
                  end
              end
          end
      | _ => (d, [])
      end
  | SettingsSettle i r =>
      match take i (pending d) with
      | Some (FrameAwaitsSettings lm, rest) =>
          match handleSettled clock lm r (Offscreen.world st) with
          | (_, w', ms) => (mkDoc (Offscreen.set_world w' st) rest, map Sent ms)
          end
      | _ => (d, [])
      end
  end.

Fixpoint turns (clock : nat -> float) (ts : list Turn) (d : Doc)
  : Doc * list Effect :=
  match ts with
  | [] => (d, [])
  | t :: ts' =>
      match turn clock t d with
      | (d1, o1) =>
          match turns clock ts' d1 with (d2, o2) => (d2, o1 ++ o2) end
      end
  end.

Definition loaded (clock : nat -> float) : Doc :=
  mkDoc (Offscreen.loaded clock) [].

(** What holds of the variables whatever the order of the turns. *)
Definition steady (st : Offscreen.State) : Prop :=
  paired (Offscreen.camera st) /\
  (if Offscreen.isRunning st
   then Offscreen.stopTracking st <> None /\
        stream (Offscreen.camera st) <> None
   else Offscreen.stopTracking st = None) /\
  tracking_inv (Offscreen.world st).

End OffscreenTurns.

Module ContentTurns.

Inductive Task : Type :=
| InitAwaitsStorage   (* initCameraDetection, at [await getTrackingSettings()] *)
| InitAwaitsCamera    (* at [await getUserMedia] in startCamera *)
| InitAwaitsPlay      (* at [await videoElement.play()] in startCamera *)
| InitAwaitsReturn    (* at [await startCamera()], startCamera having returned *)
| InitAwaitsTimer     (* at the [await] of the 2000 ms timer *)
| FrameAwaitsSettings (landmarks : option FaceLandmarks).

Record Page : Type := mkPage {
  vars : ContentScript.State;
  pending : list Task
}.

Inductive Turn : Type :=
| Message (type : String.string) (payload : JsValue)
| CallInit
| CallShutdown
| Frame (landmarks : option FaceLandmarks)
| StorageSettles (i : nat) (r : Result Storage) (b : Browser)
    (* [b]: what [stream.active] and [document.body.contains] answer *)
| CameraSettles (i : nat) (r : Result MediaStream)
| PlaySettles (i : nat) (r : Result unit) (tracking : Result unit)
| ReturnSettles (i : nat) (tracking : Result unit)
| TimerFires (i : nat)
| SettingsSettle (i : nat) (r : Result AttentionSettings).

(** A turn gives the page after it, what it did to the browser, and, when a
    call of [initCameraDetection] came to its end in it, how it ended. *)
Definition Outcome : Type := Page * list Effect * option (Result unit).

(** [initCameraDetection], up to its first await. *)
Definition beginInit (p : Page) : Outcome :=
  if ContentScript.isInitialized (vars p) then (p, [], Some (Ok tt))
  else (mkPage (vars p) (pending p ++ [InitAwaitsStorage]), [], None).

(** [startCamera], from the point where the settings have been read and
    enable the camera, up to its first await or its return. *)
Definition beginCamera (b : Browser) (st : ContentScript.State)
  (rest : list Task) : Outcome :=
  let request :=
    (mkPage st (rest ++ [InitAwaitsCamera]), [RequestedCamera], None) in
  let show (s : MediaStream) :=
    (mkPage (ContentScript.set_camera
               (mkCamera (stream (ContentScript.camera st))
                         (Some (mkVideo s))) st)
            (rest ++ [InitAwaitsPlay]),
     [AppendedVideo (mkVideo s); PlayRequested (mkVideo s)], None) in
  match stream (ContentScript.camera st) with
  | Some s =>
      if streamActive b then
        match videoElement (ContentScript.camera st) with
        | Some _ =>
            if bodyContains b
            then (mkPage st (rest ++ [InitAwaitsReturn]), [], None)
            else show s
        | None => show s
        end
      else request
  | None => request
  end.

(** [initCameraDetection], from the point where [startCamera] has settled
    without an error, up to the timer. *)
Definition afterCamera (tracking : Result unit) (st : ContentScript.State)
  (rest : list Task) : Outcome :=
  match videoElement (ContentScript.camera st) with
  | None =>
      (mkPage st rest, [], Some (Thrown (Error "Video element not created")))
  | Some v =>
      match tracking with
      | Ok _ =>
          (mkPage (ContentScript.set_stopTracking (Some (mkTracker v)) st)
                  (rest ++ [InitAwaitsTimer]),
           [StartedTracking v], None)
      | Thrown _ =>
          match within ContentScript.camera ContentScript.set_camera
                  stopCamera st with
          | (_, st', o) =>
              (mkPage st' rest, StartedTracking v :: o,
               Some (Thrown (Error ContentScript.CSP_MESSAGE)))
          end
      end
  end.

Definition turn (clock : nat -> float) (t : Turn) (p : Page) : Outcome :=
  let st := vars p in
  let idle : Outcome := (p, [], None) in
  match t with
  | Message type payload =>
      if String.eqb type "TRACKING_SETTINGS_UPDATED" then
        match wantsCamera payload with
        | Thrown _ => idle
        | Ok enabled =>
            if enabled && negb (ContentScript.isInitialized st) then
              beginInit p
            else if negb enabled && ContentScript.isInitialized st then
              match ContentScript.shutdownCameraDetection st with
              | (_, st', o) => (mkPage st' (pending p), o, None)
              end
            else idle
        end
      else idle
  | CallInit => beginInit p
  | CallShutdown =>
      match ContentScript.shutdownCameraDetection st with
      | (_, st', o) => (mkPage st' (pending p), o, None)
      end
  | Frame lm =>
      (mkPage (ContentScript.set_world
                 (counted clock (ContentScript.world st)) st)
              (pending p ++ [FrameAwaitsSettings lm]),
       [], None)
  | StorageSettles i r b =>
      match take i (pending p) with
      | Some (InitAwaitsStorage, rest) =>
          match r with
          | Thrown e => (mkPage st rest, [], Some (Thrown e))
          | Ok items =>
              match wantsCamera (getTrackingSettings items) with
              | Thrown e => (mkPage st rest, [], Some (Thrown e))
              | Ok false => (mkPage st rest, [], Some (Ok tt))
              | Ok true => beginCamera b st rest
              end
          end
      | _ => idle
      end
  | CameraSettles i r =>
      match take i (pending p) with
      | Some (InitAwaitsCamera, rest) =>
          match r with
          | Ok s =>
              (mkPage (ContentScript.set_camera
                         (mkCamera (Some s) (Some (mkVideo s))) st)
                      (rest ++ [InitAwaitsPlay]),
               [AppendedVideo (mkVideo s); PlayRequested (mkVideo s)], None)
          | Thrown e => (mkPage st rest, [], Some (Thrown e))
          end
      | _ => idle
      end
  | PlaySettles i r tracking =>
      match take i (pending p) with
      | Some (InitAwaitsPlay, rest) =>
          match r with
          | Ok _ => afterCamera tracking st rest
          | Thrown e => (mkPage st rest, [], Some (Thrown e))
          end
      | _ => idle
      end
  | ReturnSettles i tracking =>
      match take i (pending p) with
      | Some (InitAwaitsReturn, rest) => afterCamera tracking st rest
      | _ => idle
      end
  | TimerFires i =>
      match take i (pending p) with
      | Some (InitAwaitsTimer, rest) =>
          (mkPage (ContentScript.set_isInitialized true st) rest, [],
           Some (Ok tt))
      | _ => idle
      end
  | SettingsSettle i r =>
      match take i (pending p) with
      | Some (FrameAwaitsSettings lm, rest) =>
          match handleSettled clock lm r (ContentScript.world st) with
          | (_, w', ms) =>
              (mkPage (ContentScript.set_world w' st) rest, map Sent ms, None)
          end
      | _ => idle
      end
  end.

(** The page, the effects and the endings of calls of [initCameraDetection],
    in order, after the turns [ts]. *)
Fixpoint turns (clock : nat -> float) (ts : list Turn) (p : Page)
  : Page * list Effect * list (Result unit) :=
  match ts with
  | [] => (p, [], [])
  | t :: ts' =>
      match turn clock t p with
      | (p1, o1, e1) =>
          match turns clock ts' p1 with
          | (p2, o2, e2) =>
              (p2, o1 ++ o2,
               match e1 with Some r => r :: e2 | None => e2 end)
          end
      end
  end.

Definition loaded (clock : nat -> float) : Page :=
  mkPage (ContentScript.loaded clock) [].

(** The rejection a turn brings to the call that awaits it. *)
Definition rejection (t : Turn) : option Exception :=
  match t with
  | StorageSettles _ (Thrown e) _ => Some e
  | CameraSettles _ (Thrown e) => Some e
  | PlaySettles _ (Thrown e) _ => Some e
  | _ => None
  end.

(** What holds of the variables whatever the order of the turns. *)
Definition sound (st : ContentScript.State) : Prop :=
  paired (ContentScript.camera st) /\
  tracking_inv (ContentScript.world st).

End ContentTurns.

Local Close Scope string_scope.

(** ** Comparisons of binary64 numbers *)

Lemma SFcompare_swap (x y : spec_float) :
  SFcompare y x = option_map CompOpp (SFcompare x y).
Proof.
  destruct x as [sx| sx | |sx mx ex], y as [sy|sy| |sy my ey]; simpl;
    try destruct sx; try destruct sy; simpl; try reflexivity.
  all: rewrite (Z.compare_antisym ey ex);
    destruct (ey ?= ex)%Z; simpl; try reflexivity.
  all: rewrite (Pos.compare_cont_antisym mx my Eq); simpl;
    now rewrite ?CompOpp_involutive.
Qed.

Lemma SFcompare_diag (x : spec_float) :
  x = S754_nan \/ SFcompare x x = Some Eq.
Proof.
  destruct x as [sx| sx | |sx mx ex]; simpl; auto; right;
    destruct sx; try reflexivity;
    rewrite Z.compare_refl; rewrite ?Pos.compare_cont_refl; reflexivity.
Qed.

(** [a >= b] excludes [a < b]. *)
Lemma geb_ltb (a b : float) : geb a b = true -> (a <? b)%float = false.
Proof.
  unfold geb. rewrite FloatAxioms.leb_spec, FloatAxioms.ltb_spec. unfold SFleb, SFltb.
  rewrite (SFcompare_swap (Prim2SF b) (Prim2SF a)).
  destruct (SFcompare (Prim2SF b) (Prim2SF a)) as [[]|]; simpl; congruence.
Qed.

(** [NaN < b] is false whatever [b] is. *)
Lemma is_nan_ltb (a b : float) :
  PrimFloat.is_nan a = true -> (a <? b)%float = false.
Proof.
  unfold PrimFloat.is_nan. rewrite FloatAxioms.eqb_spec, FloatAxioms.ltb_spec. unfold SFeqb, SFltb.
  destruct (SFcompare_diag (Prim2SF a)) as [-> | ->]; simpl; congruence.
Qed.

Lemma AttentionState_eqb_eq (a b : AttentionState) :
  AttentionState_eqb a b = true <-> a = b.
Proof. destruct a, b; simpl; split; congruence. Qed.

Lemma AttentionState_eqb_neq (a b : AttentionState) :
  AttentionState_eqb a b = false <-> a <> b.
Proof. destruct a, b; simpl; split; congruence. Qed.

(** ** Equations of the monad *)

Section MonadLaws.

Variable clock : nat -> float.
Context {A B C : Type}.

Lemma bind_ret (a : A) (k : A -> M B) (w : World) : bind (ret a) k w = k a w.
Proof. unfold bind, ret; simpl. now destruct (k a w) as [[b w'] o]. Qed.

Lemma bind_gets (f : World -> A) (k : A -> M B) (w : World) :
  bind (gets f) k w = k (f w) w.
Proof. unfold bind, gets; simpl. now destruct (k (f w) w) as [[b w'] o]. Qed.

Lemma bind_modify (f : World -> World) (k : unit -> M B) (w : World) :
  bind (modify f) k w = k tt (f w).
Proof. unfold bind, modify; simpl. now destruct (k tt (f w)) as [[b w'] o]. Qed.

Lemma bind_Date_now (k : float -> M B) (w : World) :
  bind (Date_now clock) k w =
  k (clock (ticks w))
    (mkWorld (eyesClosedStartTime w) (currentAttentionState w)
       (closedFrameCount w) (frameCount w) (lastLogTime w) (S (ticks w))).
Proof. unfold bind, Date_now; simpl. now destruct (k _ _) as [[b w'] o]. Qed.

Lemma bind_sendMessage (m : Message) (k : unit -> M B) (w : World) :
  bind (sendMessage m) k w =
  (fst (fst (k tt w)), snd (fst (k tt w)), m :: snd (k tt w)).
Proof. reflexivity. Qed.

Lemma bind_bind (m : M A) (k : A -> M B) (h : B -> M C) (w : World) :
  bind (bind m k) h w = bind m (fun x => bind (k x) h) w.
Proof. unfold bind; simpl. now rewrite app_assoc. Qed.

(** A computation with no output, followed by another one. *)
Lemma bind_silent (m : M A) (k : A -> M B) (w : World) :
  snd (m w) = [] -> bind m k w = k (fst (fst (m w))) (snd (fst (m w))).
Proof.
  intros H. unfold bind. rewrite H. simpl.
  now destruct (k _ _) as [[b w'] o].
Qed.

End MonadLaws.

Ltac proj :=
  cbn [eyesClosedStartTime currentAttentionState closedFrameCount frameCount
       lastLogTime ticks set_eyesClosedStartTime set_currentAttentionState
       set_closedFrameCount set_frameCount set_lastLogTime fst snd app] in *.

Ltac mstep :=
  repeat first
    [ rewrite bind_bind | rewrite bind_ret | rewrite bind_gets
    | rewrite bind_modify | rewrite bind_Date_now | rewrite bind_sendMessage ];
  cbv beta; proj.

Ltac msplit :=
  match goal with
  | |- context [bind (if ?c then _ else _) _ _] => destruct c eqn:?
  | |- context [(if ?c then _ else _) ?w] =>
      lazymatch type of w with World => destruct c eqn:? end
  end.

(** Runs a computation symbolically, one case per path through it. *)
Ltac mrun :=
  unfold latch, incr_closedFrameCount, triggerDrowsinessAlert,
    sendAttentionUpdate, closedDurationOrZero, when;
  mstep; repeat (msplit; mstep);
  unfold ret, modify, gets, sendMessage, Date_now; proj.

(** ** One frame, piece by piece *)

Section Steps.

Variable clock : nat -> float.

Lemma countFrame_silent (w : World) : snd (countFrame clock w) = [].
Proof. unfold countFrame. mrun; reflexivity. Qed.

Lemma counted_fields (w : World) :
  eyesClosedStartTime (counted clock w) = eyesClosedStartTime w /\
  currentAttentionState (counted clock w) = currentAttentionState w /\
  closedFrameCount (counted clock w) = closedFrameCount w.
Proof. unfold counted, countFrame. mrun; auto. Qed.

Lemma handle_disabled (lm : option FaceLandmarks) (s : AttentionSettings)
  (w : World) :
  enabled s = false -> handleLandmarks clock lm s w = (tt, counted clock w, []).
Proof.
  intros H. unfold handleLandmarks.
  rewrite bind_silent by apply countFrame_silent. now rewrite H.
Qed.

Lemma handle_noFace (s : AttentionSettings) (w : World) :
  enabled s = true ->
  handleLandmarks clock None s w = noFace clock s (counted clock w).
Proof.
  intros H. unfold handleLandmarks.
  rewrite bind_silent by apply countFrame_silent. now rewrite H.
Qed.

Lemma handle_withFace (lm : FaceLandmarks) (s : AttentionSettings) (w : World) :
  enabled s = true ->
  handleLandmarks clock (Some lm) s w = withFace clock lm s (counted clock w).
Proof.
  intros H. unfold handleLandmarks.
  rewrite bind_silent by apply countFrame_silent. now rewrite H.
Qed.

(** *** The no-face branch *)

Lemma noFace_count (s : AttentionSettings) (w : World) :
  closedFrameCount (snd (fst (noFace clock s w))) = S (closedFrameCount w).
Proof. unfold noFace. mrun; reflexivity. Qed.

Lemma noFace_start (s : AttentionSettings) (w : World) :
  eyesClosedStartTime (snd (fst (noFace clock s w)))
  = latched w (clock (ticks w)).
Proof.
  unfold noFace, latched. mrun;
    destruct (eyesClosedStartTime w); simpl in *; congruence.
Qed.

(** What the no-face branch does to the state and what it sends. *)
Lemma noFace_outcome (s : AttentionSettings) (w : World) :
  let r := noFace clock s w in
  (currentAttentionState (snd (fst r)) = currentAttentionState w /\ snd r = [])
  \/ (exists d,
        currentAttentionState w <> Microsleep /\
        currentAttentionState (snd (fst r)) = Microsleep /\
        snd r = [DROWSINESS_DETECTED Microsleep 0.99 d])
  \/ (exists d,
        currentAttentionState w <> Drowsy /\
        currentAttentionState (snd (fst r)) = Drowsy /\
        snd r = [DROWSINESS_DETECTED Drowsy 0.94 d]).
Proof.
  unfold noFace. mrun; auto;
    match goal with
    | H : negb (AttentionState_eqb _ _) = true |- _ =>
        apply negb_true_iff, AttentionState_eqb_neq in H
    end; eauto 6.
Qed.

(** *** determineAttentionState *)

Lemma determine_silent (ear : float) (s : AttentionSettings) (w : World) :
  snd (determineAttentionState clock ear s w) = [].
Proof. unfold determineAttentionState. mrun; reflexivity. Qed.

Lemma determine_state (ear : float) (s : AttentionSettings) (w : World) :
  currentAttentionState (snd (fst (determineAttentionState clock ear s w)))
  = currentAttentionState w.
Proof. unfold determineAttentionState. mrun; reflexivity. Qed.

Lemma determine_open (ear : float) (s : AttentionSettings) (w : World) :
  (ear <? earThreshold (thresholds s))%float = false ->
  determineAttentionState clock ear s w
  = (Awake,
     mkWorld None (currentAttentionState w) 0 (frameCount w) (lastLogTime w)
             (S (ticks w)),
     []).
Proof. intros H. unfold determineAttentionState. mstep. rewrite H. now mrun. Qed.

Lemma determine_closed (ear : float) (s : AttentionSettings) (w : World) :
  (ear <? earThreshold (thresholds s))%float = true ->
  let w1 := snd (fst (determineAttentionState clock ear s w)) in
  closedFrameCount w1 = S (closedFrameCount w) /\
  eyesClosedStartTime w1 = latched w (clock (ticks w)).
Proof.
  intros H. unfold determineAttentionState, latched. mstep. rewrite H.
  mrun; split; trivial; destruct (eyesClosedStartTime w); simpl in *; congruence.
Qed.

(** An elevated result comes from a frame counted closed, past the debounce
    window, with the detector of that state switched on. *)
Lemma determine_elevated (ear : float) (s : AttentionSettings) (w : World) :
  let st := fst (fst (determineAttentionState clock ear s w)) in
  st <> Awake ->
  (ear <? earThreshold (thresholds s))%float = true /\
  MIN_CLOSED_FRAMES <= S (closedFrameCount w) /\
  (st = Microsleep -> microsleep (detectors s) = true) /\
  (st = Drowsy -> drowsiness (detectors s) = true).
Proof.
  unfold determineAttentionState. mrun; intros Hst; try congruence;
    repeat match goal with
    | H : (_ <=? _) = true |- _ => apply Nat.leb_le in H
    | H : (_ && _) = true |- _ => apply andb_prop in H; destruct H
    end; repeat split; trivial; congruence.
Qed.

(** *** The branch of a detected face *)

Lemma withFace_outcome (lm : FaceLandmarks) (s : AttentionSettings) (w : World) :
  let ear := averageEAR lm in
  let r := determineAttentionState clock ear s w in
  let st := fst (fst r) in
  let w1 := snd (fst r) in
  let w' := snd (fst (withFace clock lm s w)) in
  currentAttentionState w' = st /\
  eyesClosedStartTime w' = eyesClosedStartTime w1 /\
  closedFrameCount w' = closedFrameCount w1 /\
  exists da k ts,
    snd (withFace clock lm s w)
    = (if negb (AttentionState_eqb st (currentAttentionState w)) && elevated st
       then [DROWSINESS_DETECTED st
               (1.0 - ear / earThreshold (thresholds s))%float da]
       else [])
      ++ [ATTENTION_UPDATE st 0.85 ear
            (if truthy (eyesClosedStartTime w1)
             then ((clock k - ToNumber (eyesClosedStartTime w1)) / 1000)%float
             else 0%float)
            ts].
Proof.
  unfold withFace, averageEAR.
  rewrite bind_silent by apply determine_silent.
  generalize (determine_state
                (computeAverageEAR (leftEyeEAR lm) (rightEyeEAR lm)) s w).
  generalize (determineAttentionState clock
                (computeAverageEAR (leftEyeEAR lm) (rightEyeEAR lm)) s w).
  intros [[st w1] o] Hst. proj. rewrite <- Hst. clear Hst o.
  mstep.
  destruct (truthy (eyesClosedStartTime w1)) eqn:Ht;
    destruct st; destruct (currentAttentionState w1);
    cbn [AttentionState_eqb negb andb orb elevated when]; mrun;
    (split; [reflexivity | split; [reflexivity | split; [reflexivity |]]]);
    try congruence;
    refine (ex_intro _ _ (ex_intro _ _ (ex_intro _ _ eq_refl)));
    first [ exact 0%float | exact 0 ].
Qed.

End Steps.

(** Stopping the detector brings the tracking variables back to their
    initial values, in both hosts. *)
Lemma stop_resets (w : World) :
  let w1 := snd (fst (shutdownCameraDetection w)) in
  let w2 := snd (fst (stopDetection w)) in
  (eyesClosedStartTime w1 = None /\ currentAttentionState w1 = Awake /\
   closedFrameCount w1 = 0 /\ frameCount w1 = frameCount w) /\
  (eyesClosedStartTime w2 = None /\ currentAttentionState w2 = Awake /\
   closedFrameCount w2 = 0 /\ frameCount w2 = 0).
Proof. unfold stopDetection, shutdownCameraDetection. mrun. auto 10. Qed.

(** ** Whole frames *)

Section Frames.

Variable clock : nat -> float.

(** The three ways through [handleLandmarks]. *)
Lemma frame_cases (f : Frame) (w : World) :
  let h := handleLandmarks clock (landmarks f) (settings f) w in
  (processed f = false /\ h = (tt, counted clock w, []))
  \/ (processed f = true /\ landmarks f = None /\
      h = noFace clock (settings f) (counted clock w))
  \/ (processed f = true /\ exists lm, landmarks f = Some lm /\
      h = withFace clock lm (settings f) (counted clock w)).
Proof.
  unfold processed. destruct (enabled (settings f)) eqn:He.
  - right. destruct (landmarks f) as [lm|].
    + right. split; trivial. exists lm. split; trivial.
      now apply handle_withFace.
    + left. repeat split. now apply handle_noFace.
  - left. split; trivial. now apply handle_disabled.
Qed.

(** A frame that is not processed leaves the three tracking variables alone
    and sends nothing. *)
Lemma exec_unprocessed (f : Frame) (w : World) :
  processed f = false ->
  eyesClosedStartTime (exec clock f w) = eyesClosedStartTime w /\
  currentAttentionState (exec clock f w) = currentAttentionState w /\
  closedFrameCount (exec clock f w) = closedFrameCount w /\
  emitted clock f w = [].
Proof.
  intros H. unfold exec, emitted, processed in *.
  rewrite handle_disabled by assumption. simpl.
  destruct (counted_fields clock w) as (-> & -> & ->). auto.
Qed.

(** A processed frame counted closed extends the streak and latches the
    timestamp once the debounce window is filled. *)
Lemma exec_closed (f : Frame) (w : World) :
  processed f = true -> countedClosed f = true ->
  closedFrameCount (exec clock f w) = S (closedFrameCount w) /\
  eyesClosedStartTime (exec clock f w)
  = latched w (clock (ticks (counted clock w))).
Proof.
  intros Hp Hc. unfold exec, countedClosed in *.
  destruct (counted_fields clock w) as (Hs & _ & Hn).
  destruct (frame_cases f w) as [[E _]|[(_ & E & ->)|(_ & lm & E & ->)]];
    [congruence | |]; rewrite E in Hc.
  - rewrite noFace_count, noFace_start. unfold latched. now rewrite Hs, Hn.
  - destruct (withFace_outcome clock lm (settings f) (counted clock w))
      as (_ & -> & -> & _).
    destruct (determine_closed clock _ _ (counted clock w) Hc) as [-> ->].
    unfold latched. now rewrite Hs, Hn.
Qed.

(** A processed frame with a face and eyes open. *)
Lemma exec_open (f : Frame) (w : World) :
  processed f = true -> countedClosed f = false ->
  exists lm ts,
    landmarks f = Some lm /\
    closedFrameCount (exec clock f w) = 0 /\
    eyesClosedStartTime (exec clock f w) = None /\
    currentAttentionState (exec clock f w) = Awake /\
    emitted clock f w = [ATTENTION_UPDATE Awake 0.85 (averageEAR lm) 0 ts].
Proof.
  intros Hp Hc. unfold exec, emitted, countedClosed in *.
  destruct (frame_cases f w) as [[E _]|[(_ & E & _)|(_ & lm & E & ->)]];
    [congruence | now rewrite E in Hc |]; rewrite E in Hc.
  exists lm.
  destruct (withFace_outcome clock lm (settings f) (counted clock w))
    as (-> & -> & -> & da & k & ts & ->).
  rewrite (determine_open clock _ _ _ Hc) in *. simpl in *.
  exists ts. rewrite andb_false_r. auto.
Qed.

(** The alerts of a frame, read off the state before and after it. *)
Lemma alerts_emitted (f : Frame) (w : World) :
  let prev := currentAttentionState w in
  let new := currentAttentionState (exec clock f w) in
  if negb (AttentionState_eqb new prev) && elevated new
  then exists c d, alerts (emitted clock f w) = [DROWSINESS_DETECTED new c d]
  else alerts (emitted clock f w) = [].
Proof.
  unfold exec, emitted.
  destruct (counted_fields clock w) as (_ & Hst & _).
  destruct (frame_cases f w) as [[_ ->]|[(_ & _ & ->)|(_ & lm & _ & ->)]].
  - simpl. rewrite Hst.
    now destruct (currentAttentionState w).
  - destruct (noFace_outcome clock (settings f) (counted clock w))
      as [[-> ->]|[(d & Hne & -> & ->)|(d & Hne & -> & ->)]];
      rewrite Hst in *; destruct (currentAttentionState w); simpl;
      try congruence; eauto.
  - destruct (withFace_outcome clock lm (settings f) (counted clock w))
      as (-> & _ & _ & da & k & ts & ->).
    rewrite Hst.
    destruct (negb _ && elevated _); simpl; eauto.
Qed.

(** The periodic updates of a frame: one when a face was detected, carrying
    the state after the frame; none otherwise. *)
Lemma updates_emitted (f : Frame) (w : World) :
  let w' := exec clock f w in
  match landmarks f with
  | Some lm =>
      if processed f
      then exists k ts,
             updates (emitted clock f w)
             = [ATTENTION_UPDATE (currentAttentionState w') 0.85 (averageEAR lm)
                  (if truthy (eyesClosedStartTime w')
                   then ((clock k - ToNumber (eyesClosedStartTime w')) / 1000)%float
                   else 0%float)
                  ts]
      else updates (emitted clock f w) = []
  | None => updates (emitted clock f w) = []
  end.
Proof.
  unfold exec, emitted.
  destruct (frame_cases f w) as [[Hp ->]|[(Hp & E & ->)|(Hp & lm & E & ->)]];
    rewrite ?E, ?Hp.
  - now destruct (landmarks f).
  - destruct (noFace_outcome clock (settings f) (counted clock w))
      as [[_ ->]|[(d & _ & _ & ->)|(d & _ & _ & ->)]]; reflexivity.
  - destruct (withFace_outcome clock lm (settings f) (counted clock w))
      as (-> & -> & _ & da & k & ts & ->).
    exists k, ts.
    destruct (negb _ && elevated _); reflexivity.
Qed.

(** The confidence carried by the alerts of a frame. *)
Lemma alerts_confidence (f : Frame) (w : World) (m : Message) :
  In m (alerts (emitted clock f w)) ->
  match landmarks f with
  | None =>
      (msg_state m = Microsleep /\ msg_confidence m = 0.99%float) \/
      (msg_state m = Drowsy /\ msg_confidence m = 0.94%float)
  | Some lm =>
      msg_confidence m
      = (1.0 - averageEAR lm / earThreshold (thresholds (settings f)))%float
  end.
Proof.
  unfold emitted.
  destruct (frame_cases f w) as [[Hp ->]|[(Hp & E & ->)|(Hp & lm & E & ->)]];
    rewrite ?E.
  - simpl. intros [].
  - destruct (noFace_outcome clock (settings f) (counted clock w))
      as [[_ ->]|[(d & _ & _ & ->)|(d & _ & _ & ->)]]; simpl;
      intros Hin; repeat (destruct Hin as [<- | Hin]); try destruct Hin;
      simpl; auto.
  - destruct (withFace_outcome clock lm (settings f) (counted clock w))
      as (_ & _ & _ & da & k & ts & ->).
    destruct (negb _ && elevated _); simpl;
      intros Hin; repeat (destruct Hin as [<- | Hin]); try destruct Hin;
      reflexivity.
Qed.

End Frames.

(** ** Alert emission *)

Section Alerts.

Variable clock : nat -> float.

(** C4, amended. A frame fires an alert exactly when the state it arrives at
    differs from the state of the previous frame and is Drowsy or Microsleep;
    there is then one alert, for the new state.  A frame that stays in the
    state it was in fires nothing, and neither does a frame that arrives at
    Awake.  A frame that goes from one elevated state to the other fires,
    whether or not the state it arrives at has been alerted before. *)
Theorem C4_alert_iff_rising_edge (f : Frame) (w : World) :
  let prev := currentAttentionState w in
  let new := currentAttentionState (exec clock f w) in
  let fired := alerts (emitted clock f w) in
  (fired <> [] <-> prev <> new /\ (new = Drowsy \/ new = Microsleep)) /\
  (forall m, In m fired -> fired = [m] /\ msg_state m = new) /\
  (new = prev -> fired = []) /\
  (new = Awake -> fired = []) /\
  (prev <> Awake -> new <> Awake -> prev <> new ->
     exists c d, fired = [DROWSINESS_DETECTED new c d]).
Proof.
  cbv zeta.
  pose proof (alerts_emitted clock f w) as H. cbv zeta in H.
  set (new := currentAttentionState (exec clock f w)) in *.
  set (prev := currentAttentionState w) in *.
  destruct (negb (AttentionState_eqb new prev) && elevated new) eqn:Hfire.
  - (* a rising edge: one alert *)
    destruct H as (c & d & ->).
    apply andb_prop in Hfire as [Hne Hel].
    apply negb_true_iff, AttentionState_eqb_neq in Hne.
    split; [| split; [| split; [| split]]].
    + split; [intros _ | discriminate].
      split; [congruence |].
      destruct new; simpl in Hel; auto; discriminate.
    + intros m [<- | []]. auto.
    + intros E. congruence.
    + intros E. rewrite E in Hel. discriminate.
    + intros _ _ _. exists c, d. reflexivity.
  - (* no edge, or an edge down to Awake: no alert *)
    rewrite H. apply andb_false_iff in Hfire.
    split; [| split; [| split; [| split]]]; auto.
    + split; [congruence |]. intros [Hd He].
      destruct Hfire as [Hx | Hx].
      * apply negb_false_iff, AttentionState_eqb_eq in Hx. congruence.
      * destruct He as [E | E]; rewrite E in Hx; discriminate.
    + intros m [].
    + intros _ Hn Hd. destruct Hfire as [Hx | Hx].
      * apply negb_false_iff, AttentionState_eqb_eq in Hx. congruence.
      * destruct new; simpl in Hx; congruence.
Qed.

End Alerts.

(** C4, as the claim states it, fails on its clause about re-entering an
    elevated state.  Nineteen frames with closed eyes take the engine to
    Drowsy (frame 16, alert) and to Microsleep (frame 17, alert); the settings
    of frame 20 have the microsleep detector off, so that frame arrives at
    Drowsy again.  No frame in between was Awake, and the Drowsy alert fires a
    second time. *)
Lemma C4_counterexample :
  let closed := Sample.face 0.1 Sample.armed in
  let closed' := Sample.face 0.1 (Sample.config false true) in
  let fs := repeat closed 19 ++ [closed'] in
  let after k := currentAttentionState (run Sample.clock (firstn k fs) Sample.start) in
  map after [15; 16; 17; 18; 19; 20]
  = [Awake; Drowsy; Microsleep; Microsleep; Microsleep; Drowsy] /\
  alerts (trace Sample.clock fs Sample.start)
  = [DROWSINESS_DETECTED Drowsy 0.5 4;
     DROWSINESS_DETECTED Microsleep 0.5 8;
     DROWSINESS_DETECTED Drowsy 0.5 18] /\
  alerts (emitted Sample.clock closed
            (run Sample.clock (firstn 15 fs) Sample.start))
  = [DROWSINESS_DETECTED Drowsy 0.5 4] /\
  alerts (emitted Sample.clock closed'
            (run Sample.clock (firstn 19 fs) Sample.start))
  = [DROWSINESS_DETECTED Drowsy 0.5 18].
Proof. vm_compute. repeat split. Qed.

(** The frame that re-enters Drowsy from Microsleep, through the theorem. *)
Lemma C4_witness :
  let f := Sample.face 0.1 (Sample.config false true) in
  currentAttentionState Sample.asleep = Microsleep /\
  currentAttentionState (exec Sample.clock f Sample.asleep) = Drowsy /\
  exists c d,
    alerts (emitted Sample.clock f Sample.asleep)
    = [DROWSINESS_DETECTED Drowsy c d].
Proof.
  cbv zeta.
  assert (Hp : currentAttentionState Sample.asleep = Microsleep)
    by (vm_compute; reflexivity).
  assert (Hn : currentAttentionState
                 (exec Sample.clock (Sample.face 0.1 (Sample.config false true))
                    Sample.asleep) = Drowsy)
    by (vm_compute; reflexivity).
  split; [exact Hp |]. split; [exact Hn |].
  pose proof (C4_alert_iff_rising_edge Sample.clock
                (Sample.face 0.1 (Sample.config false true)) Sample.asleep)
    as H.
  cbv zeta in H. rewrite Hn, Hp in H.
  destruct H as (_ & _ & _ & _ & H).
  apply H; discriminate.
Defined.

(** C9. An alert sent from the no-face branch carries 0.99 with Microsleep and
    0.94 with Drowsy; an alert sent for a detected face carries
    [1 - AverageEAR / earThreshold], the float as computed, with no clamping. *)
Theorem C9_alert_confidence (clock : nat -> float) (f : Frame) (w : World)
  (m : Message) :
  In m (emitted clock f w) -> is_alert m = true ->
  (landmarks f = None ->
     (msg_state m = Microsleep /\ msg_confidence m = 0.99%float) \/
     (msg_state m = Drowsy /\ msg_confidence m = 0.94%float)) /\
  (forall lm, landmarks f = Some lm ->
     msg_confidence m
     = (1.0 - averageEAR lm / earThreshold (thresholds (settings f)))%float).
Proof.
  intros Hin Ha.
  assert (Hal : In m (alerts (emitted clock f w)))
    by (apply filter_In; auto).
  apply alerts_confidence in Hal.
  split.
  - intros E. now rewrite E in Hal.
  - intros lm E. now rewrite E in Hal.
Qed.

(** An alert whose confidence lies outside [0, 1]: an EAR of -0.1 against a
    threshold of 0.2 gives 1.5. *)
Lemma C9_witness :
  let f := Sample.face (-0.1) Sample.armed in
  let m := DROWSINESS_DETECTED Microsleep 1.5 8 in
  In m (emitted Sample.clock f Sample.dozing) /\
  msg_confidence m
  = (1.0 - averageEAR (mkLandmarks (-0.1) (-0.1))
           / earThreshold (thresholds (settings f)))%float.
Proof.
  cbv zeta.
  assert (Hin : In (DROWSINESS_DETECTED Microsleep 1.5 8)
                   (emitted Sample.clock (Sample.face (-0.1) Sample.armed)
                      Sample.dozing))
    by (vm_compute; auto).
  split; [exact Hin |].
  exact (proj2 (C9_alert_confidence Sample.clock _ _ _ Hin eq_refl) _ eq_refl).
Defined.

(** C10. Every periodic update carries the confidence 0.85, whatever the
    state, the EAR and the closed duration of the frame. *)
Theorem C10_update_confidence_constant (clock : nat -> float) (f : Frame)
  (w : World) (m : Message) :
  In m (emitted clock f w) -> is_update m = true ->
  msg_confidence m = 0.85%float.
Proof.
  intros Hin Hu.
  assert (Hup : In m (updates (emitted clock f w)))
    by (apply filter_In; auto).
  pose proof (updates_emitted clock f w) as H. cbv zeta in H.
  destruct (landmarks f) as [lm|]; [destruct (processed f) |].
  - destruct H as (k & ts & H). rewrite H in Hup.
    destruct Hup as [<- | []]. reflexivity.
  - rewrite H in Hup. destruct Hup.
  - rewrite H in Hup. destruct Hup.
Qed.

Lemma C10_witness :
  let m := ATTENTION_UPDATE Microsleep 0.85 (-0.1) 9 1700000039000 in
  In m (emitted Sample.clock (Sample.face (-0.1) Sample.armed) Sample.dozing) /\
  msg_confidence m = 0.85%float.
Proof.
  cbv zeta.
  assert (Hin : In (ATTENTION_UPDATE Microsleep 0.85 (-0.1) 9 1700000039000)
                   (emitted Sample.clock (Sample.face (-0.1) Sample.armed)
                      Sample.dozing))
    by (vm_compute; auto).
  split; [exact Hin |].
  exact (C10_update_confidence_constant Sample.clock _ _ _ Hin eq_refl).
Defined.

(** ** Periodic updates *)

(** C2, as the claim states it, fails on a frame without a face: the frame is
    processed, and no update is sent. *)
Lemma C2_counterexample :
  let f := Sample.noface Sample.armed in
  processed f = true /\
  emitted Sample.clock f Sample.start = [] /\
  length (updates (emitted Sample.clock f Sample.start)) <> 1.
Proof. vm_compute. repeat split; discriminate. Qed.

Lemma determine_ticks (clock : nat -> float) (ear : float)
  (s : AttentionSettings) (w : World) :
  ticks (snd (fst (determineAttentionState clock ear s w))) = S (ticks w).
Proof. unfold determineAttentionState. mrun; reflexivity. Qed.

(** Which readings of the clock the update of a frame is made of: its
    timestamp is the last reading of the frame, and its closed duration, when
    the timestamp of the closure is set, is measured at the reading just
    before that one; both come after the reading [determineAttentionState]
    made. *)
Lemma withFace_update (clock : nat -> float) (lm : FaceLandmarks)
  (s : AttentionSettings) (w : World) :
  let ear := averageEAR lm in
  let r := determineAttentionState clock ear s w in
  let st := fst (fst r) in
  let w1 := snd (fst r) in
  let w' := snd (fst (withFace clock lm s w)) in
  exists k,
    updates (snd (withFace clock lm s w))
    = [ATTENTION_UPDATE st 0.85 ear
         (if truthy (eyesClosedStartTime w1)
          then ((clock k - ToNumber (eyesClosedStartTime w1)) / 1000)%float
          else 0%float)
         (clock (ticks w' - 1))] /\
    ticks w1 <= ticks w' - 1 /\
    (truthy (eyesClosedStartTime w1) = true ->
       S (S k) = ticks w' /\ ticks w1 <= k).
Proof.
  unfold withFace, averageEAR.
  rewrite bind_silent by apply determine_silent.
  generalize (determineAttentionState clock
                (computeAverageEAR (leftEyeEAR lm) (rightEyeEAR lm)) s w).
  intros [[st w1] o]. proj. clear o.
  mstep.
  destruct (truthy (eyesClosedStartTime w1)) eqn:Ht;
    destruct st; destruct (currentAttentionState w1);
    cbn [AttentionState_eqb negb andb orb elevated when]; mrun;
    try congruence;
    cbn [updates filter is_update is_alert app Nat.sub];
    rewrite ?Nat.sub_0_r;
    first [ exists (S (ticks w1)); split; [reflexivity |]; split; [lia |];
            intros _; split; [reflexivity | lia]
          | exists (ticks w1); split; [reflexivity |]; split; [lia |];
            intros _; split; [reflexivity | lia]
          | exists 0; split; [reflexivity |]; split; [lia |];
            intros; discriminate ].
Qed.

(** C2, amended. On a processed frame with a detected face exactly one update
    is sent; it carries the state after the frame, the confidence 0.85, the
    AverageEAR, a timestamp that is the last reading of the clock in the
    frame, and the current closed duration: when [eyesClosedStartTime] is set
    (and truthy), the time from it to the reading of the clock made just
    before the timestamp, which is a reading of this frame made after
    [determineAttentionState] has read the clock; 0 when it is not set.  On a
    processed frame without a face no update is sent. *)
Theorem C2_update_on_detected_frames (clock : nat -> float) (w : World)
  (s : AttentionSettings) :
  enabled s = true ->
  (forall lm,
     let f := mkFrame (Some lm) s in
     let w' := exec clock f w in
     let classified := ticks (counted clock w) in
     exists k,
       updates (emitted clock f w)
       = [ATTENTION_UPDATE (currentAttentionState w') 0.85 (averageEAR lm)
            (if truthy (eyesClosedStartTime w')
             then ((clock k - ToNumber (eyesClosedStartTime w')) / 1000)%float
             else 0%float)
            (clock (ticks w' - 1))]
       /\ classified < ticks w' - 1
       /\ (truthy (eyesClosedStartTime w') = true ->
           S (S k) = ticks w' /\ classified < k)
       /\ (eyesClosedStartTime w' = None ->
           updates (emitted clock f w)
           = [ATTENTION_UPDATE (currentAttentionState w') 0.85 (averageEAR lm)
                0 (clock (ticks w' - 1))]))
  /\ updates (emitted clock (mkFrame None s) w) = [].
Proof.
  intros He. split.
  - intros lm f w' classified. unfold w', f, exec, emitted, classified.
    cbn [landmarks settings]. rewrite handle_withFace by assumption.
    destruct (withFace_outcome clock lm s (counted clock w))
      as (Hst & Hs & _).
    destruct (withFace_update clock lm s (counted clock w))
      as (k & Hu & Hts & Hk).
    rewrite determine_ticks in Hts, Hk.
    rewrite Hst, Hs. exists k. split; [exact Hu |].
    split; [lia |]. split.
    + intros Ht. destruct (Hk Ht). split; [assumption | lia].
    + intros Hn. rewrite Hu, Hn. reflexivity.
  - exact (updates_emitted clock (mkFrame None s) w).
Qed.

(** A frame with closed eyes in Microsleep: [determineAttentionState] makes
    reading 46 of the clock, the update measures the duration at reading 47
    and is stamped with reading 48.  No update for a frame without a face. *)
Lemma C2_witness :
  let f := Sample.face 0.1 Sample.armed in
  ticks (counted Sample.clock Sample.asleep) = 46 /\
  ticks (exec Sample.clock f Sample.asleep) = 49 /\
  (exists k,
     updates (emitted Sample.clock f Sample.asleep)
     = [ATTENTION_UPDATE Microsleep 0.85 0.1
          ((Sample.clock k - 1700000029000) / 1000) (Sample.clock 48)] /\
     S (S k) = 49) /\
  updates (emitted Sample.clock (Sample.noface Sample.armed) Sample.asleep) = [].
Proof.
  cbv zeta.
  split; [vm_compute; reflexivity |]. split; [vm_compute; reflexivity |].
  destruct (C2_update_on_detected_frames Sample.clock Sample.asleep
              Sample.armed eq_refl) as (Hface & Hnone).
  split; [| exact Hnone].
  destruct (Hface (mkLandmarks 0.1 0.1)) as (k & Hu & _ & Hk & _).
  assert (Hw : exec Sample.clock (mkFrame (Some (mkLandmarks 0.1 0.1))
                                    Sample.armed) Sample.asleep
               = mkWorld (Some 1700000029000%float) Microsleep 20 20
                   1700000000000 49)
    by (vm_compute; reflexivity).
  cbv zeta in Hu, Hk. rewrite Hw in Hu, Hk.
  destruct (Hk eq_refl) as [Hk1 _].
  exists k. split; [exact Hu | exact Hk1].
Defined.

(** ** Recovery *)

(** C7. On a processed frame with a detected face whose AverageEAR is at least
    [earThreshold], whatever the state before, the state is Awake,
    [closedFrameCount] is 0 and [eyesClosedStartTime] is cleared. *)
Theorem C7_open_frame_resets (clock : nat -> float) (w : World)
  (s : AttentionSettings) (lm : FaceLandmarks) :
  enabled s = true ->
  geb (averageEAR lm) (earThreshold (thresholds s)) = true ->
  let w' := exec clock (mkFrame (Some lm) s) w in
  currentAttentionState w' = Awake /\
  closedFrameCount w' = 0 /\
  eyesClosedStartTime w' = None.
Proof.
  intros He Hge w'.
  destruct (exec_open clock (mkFrame (Some lm) s) w)
    as (lm' & ts & _ & Hc & Hs & Ha & _); auto.
  unfold countedClosed. cbn [landmarks settings]. now apply geb_ltb.
Qed.

Lemma C7_witness :
  currentAttentionState Sample.asleep = Microsleep /\
  closedFrameCount Sample.asleep = 19 /\
  let w' := exec Sample.clock (Sample.face 0.3 Sample.armed) Sample.asleep in
  currentAttentionState w' = Awake /\
  closedFrameCount w' = 0 /\
  eyesClosedStartTime w' = None.
Proof.
  split; [vm_compute; reflexivity |].
  split; [vm_compute; reflexivity |].
  exact (C7_open_frame_resets Sample.clock Sample.asleep Sample.armed
           (mkLandmarks 0.3 0.3) eq_refl eq_refl).
Defined.

(** ** Detector flags *)

(** The classification function honours the detector flags: with a detector
    switched off it never returns the state of that detector. *)
Lemma determine_respects_flags (clock : nat -> float) (ear : float)
  (s : AttentionSettings) (w : World) :
  let st := fst (fst (determineAttentionState clock ear s w)) in
  (microsleep (detectors s) = false -> st <> Microsleep) /\
  (drowsiness (detectors s) = false -> st <> Drowsy).
Proof.
  cbv zeta.
  pose proof (determine_elevated clock ear s w) as H. cbv zeta in H.
  split; intros Hoff Hst; rewrite Hst in H;
    destruct H as (_ & _ & Hm & Hd); try discriminate.
  - rewrite Hm in Hoff by reflexivity. discriminate.
  - rewrite Hd in Hoff by reflexivity. discriminate.
Qed.

(** So does a processed frame with a detected face. *)
Lemma detected_frame_respects_flags (clock : nat -> float)
  (lm : FaceLandmarks) (s : AttentionSettings) (w : World) :
  enabled s = true ->
  let w' := exec clock (mkFrame (Some lm) s) w in
  (microsleep (detectors s) = false -> currentAttentionState w' <> Microsleep) /\
  (drowsiness (detectors s) = false -> currentAttentionState w' <> Drowsy).
Proof.
  intros He w'. unfold w', exec. cbn [landmarks settings].
  rewrite handle_withFace by assumption.
  destruct (withFace_outcome clock lm s (counted clock w)) as (-> & _).
  apply determine_respects_flags.
Qed.

(** With the microsleep detector off, [microsleepSeconds] has no bearing on
    what the classification function does. *)
Lemma determine_skips_disabled_threshold (clock : nat -> float) (ear : float)
  (e : bool) (thr dr ms ms' : float) (dz : bool) (w : World) :
  determineAttentionState clock ear
    (mkSettings e (mkThresholds thr dr ms) (mkDetectors false dz)) w
  = determineAttentionState clock ear
      (mkSettings e (mkThresholds thr dr ms') (mkDetectors false dz)) w.
Proof.
  unfold determineAttentionState.
  cbn [thresholds detectors earThreshold drowsySeconds microsleepSeconds
       microsleep drowsiness andb].
  reflexivity.
Qed.

(** C1, at the failing input.  Both detectors are off, and nineteen frames go
    by without a face: the no-face branch compares the closed duration with
    both thresholds all the same, sends a Drowsy and a Microsleep alert, and
    leaves the engine in Microsleep. *)
Theorem C1_noface_ignores_detector_flags :
  let fs := repeat (Sample.noface Sample.disarmed) 19 in
  microsleep (detectors Sample.disarmed) = false /\
  drowsiness (detectors Sample.disarmed) = false /\
  currentAttentionState (run Sample.clock fs Sample.start) = Microsleep /\
  trace Sample.clock fs Sample.start
  = [DROWSINESS_DETECTED Drowsy 0.94 2; DROWSINESS_DETECTED Microsleep 0.99 5].
Proof. vm_compute. repeat split. Qed.

(** ** Who assigns the state *)

(** C8, as the claim states it, fails on a frame without a face.  Both
    detectors are off, so the classification function returns Awake whatever it
    is given; the frame nevertheless takes the state from Drowsy to
    Microsleep. *)
Lemma C8_counterexample :
  let f := Sample.noface Sample.disarmed in
  processed f = true /\
  currentAttentionState Sample.unseen = Drowsy /\
  currentAttentionState (exec Sample.clock f Sample.unseen) = Microsleep /\
  (forall ear w,
     fst (fst (determineAttentionState Sample.clock ear Sample.disarmed w))
     = Awake).
Proof.
  cbv zeta.
  split; [reflexivity |].
  split; [vm_compute; reflexivity |].
  split; [vm_compute; reflexivity |].
  intros ear w.
  destruct (determine_respects_flags Sample.clock ear Sample.disarmed w)
    as [Hm Hd].
  destruct (fst (fst (determineAttentionState Sample.clock ear
                        Sample.disarmed w))); trivial.
  - now destruct Hd.
  - now destruct Hm.
Qed.

(** C8, amended. On a processed frame with a detected face the state becomes
    the value returned by [determineAttentionState] for that frame.  On a
    processed frame without a face [determineAttentionState] is not called:
    the no-face branch leaves the state as it is or sets it to Drowsy or
    Microsleep itself.  A frame that is not processed leaves the state as it
    is. *)
Theorem C8_state_assignment (clock : nat -> float) (f : Frame) (w : World) :
  let w' := exec clock f w in
  (forall lm,
     processed f = true -> landmarks f = Some lm ->
     currentAttentionState w'
     = fst (fst (determineAttentionState clock (averageEAR lm) (settings f)
                   (counted clock w)))) /\
  (processed f = true -> landmarks f = None ->
     exec clock f w = snd (fst (noFace clock (settings f) (counted clock w))) /\
     (currentAttentionState w' = currentAttentionState w \/
      currentAttentionState w' = Drowsy \/
      currentAttentionState w' = Microsleep)) /\
  (processed f = false ->
     currentAttentionState w' = currentAttentionState w).
Proof.
  cbv zeta. unfold exec.
  destruct (counted_fields clock w) as (_ & Hst & _).
  destruct (frame_cases clock f w) as [[Hp ->]|[(Hp & E & ->)|(Hp & lm & E & ->)]].
  - split; [intros; congruence | split; [intros; congruence |]].
    intros _. exact Hst.
  - split; [intros; congruence | split; [| intros; congruence]].
    intros _ _. split; trivial. rewrite <- Hst.
    destruct (noFace_outcome clock (settings f) (counted clock w))
      as [[-> _]|[(d & _ & -> & _)|(d & _ & -> & _)]]; auto.
  - split; [| split; intros; congruence].
    intros lm' _ E'. assert (lm' = lm) as -> by congruence.
    now destruct (withFace_outcome clock lm (settings f) (counted clock w))
      as (-> & _).
Qed.

Lemma C8_witness :
  currentAttentionState
    (exec Sample.clock (Sample.face 0.1 Sample.armed) Sample.asleep)
  = fst (fst (determineAttentionState Sample.clock
                (averageEAR (mkLandmarks 0.1 0.1)) Sample.armed
                (counted Sample.clock Sample.asleep))).
Proof.
  exact (proj1 (C8_state_assignment Sample.clock
                  (Sample.face 0.1 Sample.armed) Sample.asleep)
           (mkLandmarks 0.1 0.1) eq_refl eq_refl).
Defined.

(** ** EAR values that are not a ratio *)

(** C3, as the claim states it, fails for a NaN and for a negative EAR: the
    frame is not handled as a frame without a face would be.  From the initial
    state a frame without a face counts as closed and sends nothing; the frame
    with a NaN EAR counts as open and sends an update carrying the NaN; the
    frame with an EAR of -0.1 sends an update carrying -0.1. *)
Lemma C3_counterexample :
  let cfg := Sample.armed in
  let w := Sample.start in
  let nanFace := mkLandmarks nan nan in
  let negFace := mkLandmarks (-0.1) (-0.1) in
  PrimFloat.is_nan (averageEAR nanFace) = true /\
  (averageEAR negFace <? 0)%float = true /\
  handleLandmarks Sample.clock None cfg w
  = (tt, mkWorld None Awake 1 1 1700000000000 1, []) /\
  handleLandmarks Sample.clock (Some nanFace) cfg w
  = (tt, mkWorld None Awake 0 1 1700000000000 3,
     [ATTENTION_UPDATE Awake 0.85 nan 0 1700000002000]) /\
  handleLandmarks Sample.clock (Some negFace) cfg w
  = (tt, mkWorld None Awake 1 1 1700000000000 3,
     [ATTENTION_UPDATE Awake 0.85 (-0.1) 0 1700000002000]) /\
  handleLandmarks Sample.clock (Some nanFace) cfg w
  <> handleLandmarks Sample.clock None cfg w /\
  handleLandmarks Sample.clock (Some negFace) cfg w
  <> handleLandmarks Sample.clock None cfg w.
Proof.
  cbv zeta. repeat split; try (vm_compute; reflexivity);
    intros H; apply (f_equal snd) in H; vm_compute in H; discriminate.
Qed.

(** C3, amended. The EAR of a detected face is compared with [earThreshold]
    whatever it is.  A NaN fails the comparison, so the frame is handled as a
    frame with open eyes: the counters are reset, the state is Awake, and one
    update is sent, with the NaN as its EAR value.  A negative EAR below the
    threshold counts as closed: [closedFrameCount] is incremented, an update
    with that EAR value is sent, and an alert fired by that frame carries
    [1 - AverageEAR / earThreshold] computed from it. *)
Theorem C3_invalid_ear_is_classified (clock : nat -> float) (w : World)
  (s : AttentionSettings) (lm : FaceLandmarks) :
  enabled s = true ->
  let ear := averageEAR lm in
  let f := mkFrame (Some lm) s in
  let w' := exec clock f w in
  (PrimFloat.is_nan ear = true ->
     closedFrameCount w' = 0 /\
     eyesClosedStartTime w' = None /\
     currentAttentionState w' = Awake /\
     exists ts, emitted clock f w = [ATTENTION_UPDATE Awake 0.85 ear 0 ts]) /\
  ((ear <? 0)%float = true ->
   (ear <? earThreshold (thresholds s))%float = true ->
     closedFrameCount w' = S (closedFrameCount w) /\
     (exists d ts,
        updates (emitted clock f w)
        = [ATTENTION_UPDATE (currentAttentionState w') 0.85 ear d ts]) /\
     (forall m, In m (alerts (emitted clock f w)) ->
        msg_confidence m = (1.0 - ear / earThreshold (thresholds s))%float)).
Proof.
  intros He ear f w'. split.
  - intros Hnan.
    destruct (exec_open clock f w) as (lm' & ts & E & Hc & Hs & Ha & Hm);
      trivial.
    { unfold countedClosed. cbn [f landmarks settings]. now apply is_nan_ltb. }
    cbn [f landmarks] in E. assert (lm' = lm) as -> by congruence.
    repeat split; trivial. now exists ts.
  - intros _ Hlt.
    destruct (exec_closed clock f w) as [Hc _]; trivial.
    split; [exact Hc |]. split.
    + pose proof (updates_emitted clock f w) as H.
      unfold processed in H. cbn [f landmarks settings] in H.
      rewrite He in H. destruct H as (k & ts & H). eauto.
    + intros m Hin. exact (alerts_confidence clock f w m Hin).
Qed.

Lemma C3_witness :
  let lm := mkLandmarks nan nan in
  let f := mkFrame (Some lm) Sample.armed in
  let w' := exec Sample.clock f Sample.asleep in
  closedFrameCount Sample.asleep = 19 /\
  closedFrameCount w' = 0 /\
  eyesClosedStartTime w' = None /\
  currentAttentionState w' = Awake /\
  exists ts,
    emitted Sample.clock f Sample.asleep
    = [ATTENTION_UPDATE Awake 0.85 (averageEAR lm) 0 ts].
Proof.
  cbv zeta. split; [vm_compute; reflexivity |].
  exact (proj1 (C3_invalid_ear_is_classified Sample.clock Sample.asleep
                  Sample.armed (mkLandmarks nan nan) eq_refl) eq_refl).
Defined.

(** ** Runs of frames *)

Section Runs.

Variable clock : nat -> float.

Lemma run_app (fs gs : list Frame) (w : World) :
  run clock (fs ++ gs) w = run clock gs (run clock fs w).
Proof. revert w. induction fs as [|f fs IH]; intros w; simpl; auto. Qed.

Lemma trace_app (fs gs : list Frame) (w : World) :
  trace clock (fs ++ gs) w
  = trace clock fs w ++ trace clock gs (run clock fs w).
Proof.
  revert w. induction fs as [|f fs IH]; intros w; simpl; auto.
  now rewrite IH, app_assoc.
Qed.

Lemma closedStreak_snoc (fs : list Frame) (f : Frame) :
  closedStreak (fs ++ [f])
  = if processed f
    then if countedClosed f then S (closedStreak fs) else 0
    else closedStreak fs.
Proof.
  unfold closedStreak. rewrite filter_app. simpl.
  destruct (processed f); simpl.
  - now rewrite rev_app_distr.
  - now rewrite app_nil_r.
Qed.

(** Within the debounce window the no-face branch only counts. *)
Lemma noFace_early (s : AttentionSettings) (w : World) :
  S (closedFrameCount w) < MIN_CLOSED_FRAMES ->
  noFace clock s w = (tt, set_closedFrameCount (S (closedFrameCount w)) w, []).
Proof.
  intros H. apply Nat.leb_gt in H.
  unfold noFace, incr_closedFrameCount, when. mstep.
  rewrite H. reflexivity.
Qed.

(** A frame counted closed within the debounce window keeps the state Awake. *)
Lemma exec_early (f : Frame) (w : World) :
  processed f = true -> countedClosed f = true ->
  S (closedFrameCount w) < MIN_CLOSED_FRAMES ->
  currentAttentionState w = Awake ->
  currentAttentionState (exec clock f w) = Awake.
Proof.
  intros Hp Hc Hlt Ha. unfold exec.
  destruct (counted_fields clock w) as (_ & Hst & Hn).
  destruct (frame_cases clock f w)
    as [[E _]|[(_ & E & ->)|(_ & lm & E & ->)]]; [congruence | |].
  - rewrite noFace_early by (rewrite Hn; exact Hlt). simpl. congruence.
  - destruct (withFace_outcome clock lm (settings f) (counted clock w))
      as (-> & _).
    pose proof (determine_elevated clock (averageEAR lm) (settings f)
                  (counted clock w)) as H. cbv zeta in H.
    destruct (fst (fst (determineAttentionState clock (averageEAR lm)
                          (settings f) (counted clock w)))); trivial;
      destruct H as (_ & H & _); try discriminate;
      rewrite Hn in H; unfold MIN_CLOSED_FRAMES in *; lia.
Qed.

(** A frame that ends in Awake with no timestamp set sends quiet messages
    only. *)
Lemma emitted_quiet (f : Frame) (w : World) :
  currentAttentionState (exec clock f w) = Awake ->
  eyesClosedStartTime (exec clock f w) = None ->
  Forall quiet (emitted clock f w).
Proof.
  unfold exec, emitted.
  destruct (frame_cases clock f w)
    as [[_ ->]|[(_ & _ & ->)|(_ & lm & _ & ->)]].
  - constructor.
  - destruct (noFace_outcome clock (settings f) (counted clock w))
      as [[_ ->]|[(d & _ & -> & _)|(d & _ & -> & _)]];
      intros; try discriminate; constructor.
  - destruct (withFace_outcome clock lm (settings f) (counted clock w))
      as (-> & -> & _ & da & k & ts & ->).
    intros -> ->. rewrite andb_false_r. simpl.
    repeat constructor.
Qed.

Lemma tracking_inv_initial : tracking_inv (initial clock).
Proof.
  unfold tracking_inv, MIN_CLOSED_FRAMES. simpl. split; [split |]; intros;
    trivial; try congruence; lia.
Qed.

Lemma tracking_inv_exec (f : Frame) (w : World) :
  tracking_inv w -> tracking_inv (exec clock f w).
Proof.
  intros [Hlatch Hawake]. unfold tracking_inv.
  destruct (processed f) eqn:Hp; [destruct (countedClosed f) eqn:Hc |].
  - destruct (exec_closed clock f w Hp Hc) as [-> ->]. unfold latched.
    destruct (MIN_CLOSED_FRAMES <=? S (closedFrameCount w)) eqn:Hle.
    + apply Nat.leb_le in Hle. split; [split; intros; [trivial | discriminate] |].
      intros Hlt. lia.
    + apply Nat.leb_gt in Hle. split.
      * rewrite Hlatch. lia.
      * intros _. apply exec_early; trivial. apply Hawake. lia.
  - destruct (exec_open clock f w Hp Hc) as (lm & ts & _ & -> & -> & -> & _).
    unfold MIN_CLOSED_FRAMES. split; [split |]; intros; trivial;
      try congruence; lia.
  - destruct (exec_unprocessed clock f w Hp) as (-> & -> & -> & _).
    now split.
Qed.

Lemma tracking_inv_run (fs : list Frame) (w : World) :
  tracking_inv w -> tracking_inv (run clock fs w).
Proof.
  revert w. induction fs as [|f fs IH]; intros w Hw; simpl; trivial.
  apply IH, tracking_inv_exec, Hw.
Qed.

Lemma reachable_inv (w : World) : reachable clock w -> tracking_inv w.
Proof.
  intros [fs ->]. apply tracking_inv_run, tracking_inv_initial.
Qed.

(** The counter is the closure streak in progress. *)
Lemma count_is_streak (fs : list Frame) :
  closedFrameCount (run clock fs (initial clock)) = closedStreak fs.
Proof.
  induction fs as [|f fs IH] using rev_ind; [reflexivity |].
  rewrite run_app, closedStreak_snoc. simpl.
  destruct (processed f) eqn:Hp; [destruct (countedClosed f) eqn:Hc |].
  - destruct (exec_closed clock f (run clock fs (initial clock)) Hp Hc)
      as [-> _]. now rewrite IH.
  - now destruct (exec_open clock f (run clock fs (initial clock)) Hp Hc)
      as (lm & ts & _ & -> & _).
  - destruct (exec_unprocessed clock f (run clock fs (initial clock)) Hp)
      as (_ & _ & -> & _). exact IH.
Qed.

(** A streak that stays within the debounce window. *)
Lemma short_streak (fs : list Frame) (w : World) :
  tracking_inv w ->
  Forall (fun g => processed g = true /\ countedClosed g = true) fs ->
  closedFrameCount w + length fs < MIN_CLOSED_FRAMES ->
  (forall k, k <= length fs ->
     eyesClosedStartTime (run clock (firstn k fs) w) = None /\
     currentAttentionState (run clock (firstn k fs) w) = Awake) /\
  closedFrameCount (run clock fs w) = closedFrameCount w + length fs /\
  Forall quiet (trace clock fs w).
Proof.
  assert (Hnone : forall v, tracking_inv v ->
            closedFrameCount v < MIN_CLOSED_FRAMES ->
            eyesClosedStartTime v = None /\ currentAttentionState v = Awake).
  { intros v [Hl Ha] Hlt. split; [| auto].
    destruct (eyesClosedStartTime v) eqn:E; trivial.
    assert (MIN_CLOSED_FRAMES <= closedFrameCount v)
      by (apply Hl; discriminate). lia. }
  revert w. induction fs as [|f fs IH]; intros w Hw Hall Hlen.
  - simpl in *. split; [| split; [lia | constructor]].
    intros k Hk. replace k with 0 by lia. simpl. apply Hnone; trivial. lia.
  - inversion Hall as [|g gs [Hp Hc] Hall']; subst. simpl in Hlen.
    destruct (exec_closed clock f w Hp Hc) as [Hcount _].
    assert (Hw' : tracking_inv (exec clock f w))
      by now apply tracking_inv_exec.
    destruct (IH (exec clock f w) Hw' Hall') as (Hpre & Hcnt & Hq);
      [rewrite Hcount; lia |].
    split; [| split].
    + intros [|k] Hk; simpl.
      * apply Hnone; trivial. lia.
      * apply Hpre. simpl in Hk. lia.
    + simpl. rewrite Hcnt, Hcount. lia.
    + simpl. apply Forall_app. split; trivial.
      destruct (Hnone (exec clock f w) Hw') as [Hs Ha];
        [rewrite Hcount; lia |].
      now apply emitted_quiet.
Qed.

End Runs.

Lemma quiet_no_alerts (ms : list Message) : Forall quiet ms -> alerts ms = [].
Proof.
  induction 1 as [|m ms [Hu _] _ IH]; simpl; trivial.
  destruct m; simpl in *; [discriminate | exact IH].
Qed.

(** ** Blink filtering *)

(** C5. A closure streak shorter than [MIN_CLOSED_FRAMES], followed by a frame
    with open eyes: [eyesClosedStartTime] is never set, the state is Awake
    after every frame, no alert is sent, and every message sent is an update
    in state Awake with a closed duration of 0. *)
Theorem C5_blink_is_filtered (clock : nat -> float) (w : World)
  (fs : list Frame) (f : Frame) :
  reachable clock w -> closedFrameCount w = 0 ->
  Forall (fun g => processed g = true /\ countedClosed g = true) fs ->
  length fs < MIN_CLOSED_FRAMES ->
  processed f = true -> countedClosed f = false ->
  (forall k, k <= length fs ->
     eyesClosedStartTime (run clock (firstn k fs) w) = None /\
     currentAttentionState (run clock (firstn k fs) w) = Awake) /\
  (let w' := run clock (fs ++ [f]) w in
   eyesClosedStartTime w' = None /\
   currentAttentionState w' = Awake /\
   closedFrameCount w' = 0) /\
  alerts (trace clock (fs ++ [f]) w) = [] /\
  Forall quiet (trace clock (fs ++ [f]) w).
Proof.
  intros Hr H0 Hall Hlen Hp Ho.
  destruct (short_streak clock fs w) as (Hpre & _ & Hq); trivial.
  { now apply (reachable_inv clock). }
  { rewrite H0. exact Hlen. }
  destruct (exec_open clock f (run clock fs w) Hp Ho)
    as (lm & ts & _ & Hc & Hs & Ha & Hm).
  assert (Hquiet : Forall quiet (trace clock (fs ++ [f]) w)).
  { rewrite trace_app. apply Forall_app. split; trivial.
    simpl. rewrite app_nil_r, Hm. repeat constructor. }
  split; [exact Hpre |]. split.
  - cbv zeta. rewrite run_app. simpl. auto.
  - split; [now apply quiet_no_alerts | exact Hquiet].
Qed.

(** The blink of section 8: ten frames at EAR 0.1, then one at 0.3. *)
Lemma C5_witness :
  let fs := Sample.blink in
  let f := Sample.face 0.3 Sample.armed in
  let w := Sample.start in
  (forall k, k <= length fs ->
     eyesClosedStartTime (run Sample.clock (firstn k fs) w) = None /\
     currentAttentionState (run Sample.clock (firstn k fs) w) = Awake) /\
  (let w' := run Sample.clock (fs ++ [f]) w in
   eyesClosedStartTime w' = None /\
   currentAttentionState w' = Awake /\
   closedFrameCount w' = 0) /\
  alerts (trace Sample.clock (fs ++ [f]) w) = [] /\
  Forall quiet (trace Sample.clock (fs ++ [f]) w).
Proof.
  apply (C5_blink_is_filtered Sample.clock Sample.start Sample.blink
           (Sample.face 0.3 Sample.armed)).
  - exists []. reflexivity.
  - reflexivity.
  - unfold Sample.blink. simpl. repeat constructor.
  - unfold Sample.blink, MIN_CLOSED_FRAMES. simpl. lia.
  - reflexivity.
  - reflexivity.
Defined.

(** ** The latch *)

(** C6. After any sequence of frames from the initial state:
    [closedFrameCount] is the number of processed frames, counted closed
    without interruption, that end the sequence; [eyesClosedStartTime] is set
    exactly when that number has reached [MIN_CLOSED_FRAMES]; a further frame
    counted closed leaves a timestamp that is set as it is, and sets one only
    as the count becomes [MIN_CLOSED_FRAMES]; a frame with open eyes clears
    it. *)
Theorem C6_latch_invariant (clock : nat -> float) (fs : list Frame) :
  let w := run clock fs (initial clock) in
  closedFrameCount w = closedStreak fs /\
  (eyesClosedStartTime w <> None <-> MIN_CLOSED_FRAMES <= closedFrameCount w) /\
  (forall f, processed f = true -> countedClosed f = true ->
     (forall t, eyesClosedStartTime w = Some t ->
        eyesClosedStartTime (exec clock f w) = Some t) /\
     (eyesClosedStartTime w = None ->
      eyesClosedStartTime (exec clock f w) <> None ->
        closedFrameCount (exec clock f w) = MIN_CLOSED_FRAMES)) /\
  (forall f, processed f = true -> countedClosed f = false ->
     eyesClosedStartTime (exec clock f w) = None /\
     closedFrameCount (exec clock f w) = 0).
Proof.
  intros w.
  assert (Hinv : tracking_inv w)
    by (apply (reachable_inv clock); now exists fs).
  destruct Hinv as [Hlatch _].
  split; [apply count_is_streak |]. split; [exact Hlatch |]. split.
  - intros f Hp Hc.
    destruct (exec_closed clock f w Hp Hc) as [Hn Hs]. split.
    + intros t Ht. rewrite Hs. unfold latched. rewrite Ht.
      assert (MIN_CLOSED_FRAMES <= closedFrameCount w)
        by (apply Hlatch; congruence).
      destruct (Nat.leb_spec MIN_CLOSED_FRAMES (S (closedFrameCount w)));
        [reflexivity | lia].
    + intros Hnone Hset. rewrite Hs in Hset. unfold latched in Hset.
      rewrite Hn.
      assert (~ MIN_CLOSED_FRAMES <= closedFrameCount w)
        by (rewrite <- Hlatch; congruence).
      destruct (Nat.leb_spec MIN_CLOSED_FRAMES (S (closedFrameCount w)));
        [lia | congruence].
  - intros f Hp Ho.
    destruct (exec_open clock f w Hp Ho) as (lm & ts & _ & -> & -> & _).
    auto.
Qed.

Lemma C6_witness :
  let w := run Sample.clock (repeat (Sample.face 0.1 Sample.armed) 19)
             (initial Sample.clock) in
  closedFrameCount w = 19 /\
  eyesClosedStartTime w = Some 1700000029000%float /\
  eyesClosedStartTime (exec Sample.clock (Sample.noface Sample.armed) w)
  = Some 1700000029000%float /\
  eyesClosedStartTime (exec Sample.clock (Sample.face 0.3 Sample.armed) w)
  = None.
Proof.
  cbv zeta.
  pose proof (C6_latch_invariant Sample.clock
                (repeat (Sample.face 0.1 Sample.armed) 19)) as H.
  cbv zeta in H. destruct H as (Hn & _ & Hclosed & Hopen).
  split; [rewrite Hn; reflexivity |].
  assert (Hs : eyesClosedStartTime
                 (run Sample.clock (repeat (Sample.face 0.1 Sample.armed) 19)
                    (initial Sample.clock))
               = Some 1700000029000%float) by (vm_compute; reflexivity).
  split; [exact Hs |]. split.
  - exact (proj1 (Hclosed (Sample.noface Sample.armed) eq_refl eq_refl) _ Hs).
  - exact (proj1 (Hopen (Sample.face 0.3 Sample.armed) eq_refl eq_refl)).
Defined.

(** * Further properties of the frame handler *)

Lemma counted_frameCount (clock : nat -> float) (w : World) :
  frameCount (counted clock w) = S (frameCount w).
Proof. unfold counted, countFrame. mrun; reflexivity. Qed.

Lemma exec_frameCount (clock : nat -> float) (f : Frame) (w : World) :
  frameCount (exec clock f w) = S (frameCount w).
Proof.
  unfold exec.
  destruct (frame_cases clock f w)
    as [[_ ->]|[(_ & _ & ->)|(_ & lm & _ & ->)]].
  - apply counted_frameCount.
  - rewrite <- (counted_frameCount clock w).
    generalize (counted clock w). intros v. unfold noFace. mrun; reflexivity.
  - rewrite <- (counted_frameCount clock w).
    generalize (counted clock w). intros v.
    unfold withFace. rewrite bind_silent by apply determine_silent.
    assert (Hd : frameCount
                   (snd (fst (determineAttentionState clock
                      (computeAverageEAR (leftEyeEAR lm) (rightEyeEAR lm))
                      (settings f) v))) = frameCount v)
      by (unfold determineAttentionState; mrun; reflexivity).
    revert Hd.
    generalize (determineAttentionState clock
                  (computeAverageEAR (leftEyeEAR lm) (rightEyeEAR lm))
                  (settings f) v).
    intros [[st w1] o] Hd. proj. rewrite <- Hd. mrun; reflexivity.
Qed.

(** X1. The master flag only gates: while it is off, frames are still counted,
    but the tracking variables stay as they are, an elevated state included,
    and nothing is sent. *)
Theorem disabled_frames_freeze_engine (clock : nat -> float)
  (fs : list Frame) (w : World) :
  Forall (fun f => enabled (settings f) = false) fs ->
  let w' := run clock fs w in
  eyesClosedStartTime w' = eyesClosedStartTime w /\
  currentAttentionState w' = currentAttentionState w /\
  closedFrameCount w' = closedFrameCount w /\
  frameCount w' = frameCount w + length fs /\
  trace clock fs w = [].
Proof.
  intros Hall. revert w. induction Hall as [|f fs Hf _ IH]; intros w.
  - simpl. repeat split; trivial; lia.
  - simpl.
    destruct (exec_unprocessed clock f w Hf) as (Hs & Hst & Hc & He).
    destruct (IH (exec clock f w)) as (-> & -> & -> & -> & ->).
    rewrite exec_frameCount, He. repeat split; trivial; lia.
Qed.

Lemma disabled_frames_freeze_engine_witness :
  let off := mkSettings false Sample.limits (mkDetectors true true) in
  let fs := repeat (mkFrame None off) 40 ++ repeat (Sample.face 0.3 off) 40 in
  let w' := run Sample.clock fs Sample.asleep in
  currentAttentionState Sample.asleep = Microsleep /\
  eyesClosedStartTime w' = eyesClosedStartTime Sample.asleep /\
  currentAttentionState w' = currentAttentionState Sample.asleep /\
  closedFrameCount w' = closedFrameCount Sample.asleep /\
  frameCount w' = frameCount Sample.asleep + length fs /\
  trace Sample.clock fs Sample.asleep = [].
Proof.
  cbv zeta. split; [vm_compute; reflexivity |].
  apply (disabled_frames_freeze_engine Sample.clock).
  apply Forall_app. split; apply Forall_forall; intros f Hf;
    apply repeat_spec in Hf; subst; reflexivity.
Defined.


(** What the no-face branch sends: nothing, or one alert, past the debounce
    window, whose duration is the time since [eyesClosedStartTime] and has
    passed the threshold of the state it announces. *)
Lemma noFace_alert (clock : nat -> float) (s : AttentionSettings) (w : World)
  (m : Message) :
  In m (snd (noFace clock s w)) ->
  snd (noFace clock s w) = [m] /\
  is_alert m = true /\
  MIN_CLOSED_FRAMES <= S (closedFrameCount w) /\
  (exists k,
     msg_duration m
     = ((clock k
         - ToNumber (eyesClosedStartTime (snd (fst (noFace clock s w)))))
        / 1000)%float) /\
  ((msg_state m = Microsleep /\
    geb (msg_duration m) (microsleepSeconds (thresholds s)) = true) \/
   (msg_state m = Drowsy /\
    geb (msg_duration m) (microsleepSeconds (thresholds s)) = false /\
    geb (msg_duration m) (drowsySeconds (thresholds s)) = true)).
Proof.
  unfold noFace. mrun; simpl; intros Hin;
    repeat (destruct Hin as [<- | Hin]); try destruct Hin;
    match goal with
    | H : (_ <=? _) = true |- _ => apply Nat.leb_le in H
    end;
    (split; [reflexivity | split; [reflexivity | split; [assumption |]]]);
    (split; [eexists; reflexivity |]); simpl; auto.
Qed.

(** X2. An alert sent for a frame without a face is the only message of that
    frame; the closed frame count has reached [MIN_CLOSED_FRAMES]; the
    duration it reports is measured from [eyesClosedStartTime] and is at least
    [microsleepSeconds] for Microsleep, at least [drowsySeconds] and not
    [microsleepSeconds] for Drowsy. *)
Theorem noface_alert_meets_threshold (clock : nat -> float)
  (s : AttentionSettings) (w : World) (m : Message) :
  enabled s = true ->
  In m (emitted clock (mkFrame None s) w) ->
  let w' := exec clock (mkFrame None s) w in
  emitted clock (mkFrame None s) w = [m] /\
  is_alert m = true /\
  MIN_CLOSED_FRAMES <= closedFrameCount w' /\
  (exists k,
     msg_duration m
     = ((clock k - ToNumber (eyesClosedStartTime w')) / 1000)%float) /\
  ((msg_state m = Microsleep /\
    geb (msg_duration m) (microsleepSeconds (thresholds s)) = true) \/
   (msg_state m = Drowsy /\
    geb (msg_duration m) (microsleepSeconds (thresholds s)) = false /\
    geb (msg_duration m) (drowsySeconds (thresholds s)) = true)).
Proof.
  intros He. unfold emitted, exec. cbn [landmarks settings].
  rewrite handle_noFace by assumption. intros Hin.
  destruct (noFace_alert clock s (counted clock w) m Hin)
    as (Hm & Ha & Hc & Hd & Ht).
  rewrite noFace_count. auto.
Qed.

Lemma noface_alert_meets_threshold_witness :
  let m := DROWSINESS_DETECTED Microsleep 0.99 5 in
  let f := Sample.noface Sample.disarmed in
  emitted Sample.clock f Sample.unseen = [m] /\
  MIN_CLOSED_FRAMES <= closedFrameCount (exec Sample.clock f Sample.unseen) /\
  geb (msg_duration m) (microsleepSeconds (thresholds Sample.disarmed)) = true.
Proof.
  cbv zeta.
  assert (Hin : In (DROWSINESS_DETECTED Microsleep 0.99 5)
                   (emitted Sample.clock (Sample.noface Sample.disarmed)
                      Sample.unseen))
    by (vm_compute; auto).
  destruct (noface_alert_meets_threshold Sample.clock Sample.disarmed
              Sample.unseen _ eq_refl Hin) as (H1 & _ & H2 & _ & _).
  split; [exact H1 |]. split; [exact H2 | reflexivity].
Defined.

(** X3. Frames without a face, processed or not, never take the engine back:
    the closed frame count does not decrease, a timestamp that is set stays
    the same, an elevated state stays elevated, and no update is sent.  Only a
    frame with a detected face returns the engine to Awake. *)
Theorem noface_frames_never_recover (clock : nat -> float)
  (fs : list Frame) (w : World) :
  Forall (fun f => landmarks f = None) fs ->
  let w' := run clock fs w in
  closedFrameCount w <= closedFrameCount w' /\
  (forall t, eyesClosedStartTime w = Some t ->
     eyesClosedStartTime w' = Some t) /\
  (currentAttentionState w <> Awake -> currentAttentionState w' <> Awake) /\
  updates (trace clock fs w) = [].
Proof.
  intros Hall. revert w. induction Hall as [|f fs Hf _ IH]; intros w.
  - simpl. auto.
  - simpl. destruct (IH (exec clock f w)) as (Hc & Hs & Hst & Hu).
    assert (Hstep :
      closedFrameCount w <= closedFrameCount (exec clock f w) /\
      (forall t, eyesClosedStartTime w = Some t ->
         eyesClosedStartTime (exec clock f w) = Some t) /\
      (currentAttentionState w <> Awake ->
         currentAttentionState (exec clock f w) <> Awake)).
    { destruct (processed f) eqn:Hp.
      - assert (Hcl : countedClosed f = true)
          by (unfold countedClosed; now rewrite Hf).
        destruct (exec_closed clock f w Hp Hcl) as [-> ->].
        split; [lia |]. split.
        + intros t Ht. unfold latched. rewrite Ht.
          now destruct (MIN_CLOSED_FRAMES <=? S (closedFrameCount w)).
        + unfold exec. rewrite Hf.
          rewrite handle_noFace by exact Hp.
          destruct (counted_fields clock w) as (_ & <- & _).
          destruct (noFace_outcome clock (settings f) (counted clock w))
            as [[-> _]|[(d & _ & -> & _)|(d & _ & -> & _)]];
            trivial; discriminate.
      - destruct (exec_unprocessed clock f w Hp) as (-> & -> & -> & _).
        auto. }
    destruct Hstep as (Hc1 & Hs1 & Hst1).
    split; [lia |]. split; [auto |]. split; [auto |].
    unfold updates in *. rewrite filter_app. fold (updates (trace clock fs (exec clock f w))).
    pose proof (updates_emitted clock f w) as Hup. cbv zeta in Hup.
    rewrite Hf in Hup. unfold updates in Hup. rewrite Hup. exact Hu.
Qed.

Lemma noface_frames_never_recover_witness :
  let fs := repeat (Sample.noface Sample.armed) 100 in
  let w' := run Sample.clock fs Sample.asleep in
  currentAttentionState Sample.asleep <> Awake /\
  closedFrameCount Sample.asleep <= closedFrameCount w' /\
  eyesClosedStartTime w' = eyesClosedStartTime Sample.asleep /\
  currentAttentionState w' <> Awake /\
  updates (trace Sample.clock fs Sample.asleep) = [].
Proof.
  cbv zeta.
  assert (Hne : currentAttentionState Sample.asleep <> Awake)
    by (vm_compute; discriminate).
  assert (Hs : eyesClosedStartTime Sample.asleep = Some 1700000029000%float)
    by (vm_compute; reflexivity).
  destruct (noface_frames_never_recover Sample.clock
              (repeat (Sample.noface Sample.armed) 100) Sample.asleep)
    as (Hc & Ht & Hst & Hu).
  { apply Forall_forall. intros f Hf. apply repeat_spec in Hf. now subst. }
  split; [exact Hne |]. split; [exact Hc |].
  split; [rewrite Hs; exact (Ht _ Hs) |].
  split; [exact (Hst Hne) | exact Hu].
Defined.

(** X4. A processed frame with a detected face sends one or two messages: the
    update comes last, an alert, when there is one, comes before it, and
    both carry the state the frame arrived at. *)
Theorem detected_frame_messages (clock : nat -> float) (lm : FaceLandmarks)
  (s : AttentionSettings) (w : World) :
  enabled s = true ->
  let f := mkFrame (Some lm) s in
  let new := currentAttentionState (exec clock f w) in
  exists up,
    is_update up = true /\ msg_state up = new /\
    (emitted clock f w = [up] \/
     exists al,
       is_alert al = true /\ msg_state al = new /\
       emitted clock f w = [al; up]).
Proof.
  intros He f new. unfold new, f, exec, emitted. cbn [landmarks settings].
  rewrite handle_withFace by assumption.
  destruct (withFace_outcome clock lm s (counted clock w))
    as (-> & _ & _ & da & k & ts & ->).
  destruct (negb _ && elevated _); simpl;
    match goal with
    | |- context [ATTENTION_UPDATE ?a ?b ?c ?d ?e] =>
        exists (ATTENTION_UPDATE a b c d e)
    end; (split; [reflexivity | split; [reflexivity |]]).
  - right.
    match goal with
    | |- context [DROWSINESS_DETECTED ?a ?b ?c] =>
        exists (DROWSINESS_DETECTED a b c)
    end. repeat split.
  - left. reflexivity.
Qed.

Lemma detected_frame_messages_witness :
  emitted Sample.clock (Sample.face (-0.1) Sample.armed) Sample.dozing
  = [DROWSINESS_DETECTED Microsleep 1.5 8;
     ATTENTION_UPDATE Microsleep 0.85 (-0.1) 9 1700000039000] /\
  exists up,
    is_update up = true /\
    msg_state up
    = currentAttentionState
        (exec Sample.clock (Sample.face (-0.1) Sample.armed) Sample.dozing).
Proof.
  split; [vm_compute; reflexivity |].
  destruct (detected_frame_messages Sample.clock (mkLandmarks (-0.1) (-0.1))
              Sample.armed Sample.dozing eq_refl) as (up & Hu & Hs & _).
  exists up. split; [exact Hu | exact Hs].
Defined.

(** X5. For a frame counted closed past the debounce window,
    [determineAttentionState] measures the closed duration from the timestamp
    that is set, or from the reading of this very call when none is.  The
    microsleep test comes first: the result is Microsleep as soon as that
    detector is on and its threshold is met, whatever the drowsiness settings
    are, and Drowsy only when the microsleep test fails. *)
Theorem closed_frame_classification (clock : nat -> float) (ear : float)
  (s : AttentionSettings) (w : World) :
  (ear <? earThreshold (thresholds s))%float = true ->
  MIN_CLOSED_FRAMES <= S (closedFrameCount w) ->
  let now := clock (ticks w) in
  let since :=
    match eyesClosedStartTime w with Some t => t | None => now end in
  let d := ((now - since) / 1000)%float in
  let micro :=
    microsleep (detectors s) && geb d (microsleepSeconds (thresholds s)) in
  let drowsy :=
    drowsiness (detectors s) && geb d (drowsySeconds (thresholds s)) in
  let st := fst (fst (determineAttentionState clock ear s w)) in
  (st = Microsleep <-> micro = true) /\
  (st = Drowsy <-> micro = false /\ drowsy = true) /\
  (st = Awake <-> micro = false /\ drowsy = false).
Proof.
  intros Hlt Hc. apply Nat.leb_le in Hc. cbv zeta.
  unfold determineAttentionState. mstep. rewrite Hlt.
  unfold incr_closedFrameCount, latch, when. mstep. rewrite Hc. mstep.
  destruct (eyesClosedStartTime w) as [t|]; cbn [is_null]; mstep;
    cbn [ToNumber];
    match goal with
    | |- context [if ?a && ?b then _ else _] =>
        destruct (a && b) eqn:Hm
    end;
    try match goal with
    | |- context [if ?a && ?b then _ else _] =>
        destruct (a && b) eqn:Hd
    end;
    unfold ret; cbn [fst snd];
    repeat split; intros; try discriminate; try tauto;
    match goal with
    | H : _ /\ _ |- _ => destruct H; discriminate
    end.
Qed.

(** A threshold of 5 s for microsleep and of 8 s for drowsiness: at 6 s the
    engine goes to Microsleep, not having been Drowsy. *)
Lemma closed_frame_classification_witness :
  let s := mkSettings true (mkThresholds 0.2 8 5) (mkDetectors true true) in
  let w := mkWorld (Some (Sample.clock 4)) Awake 40 40 (Sample.clock 0) 10 in
  fst (fst (determineAttentionState Sample.clock 0.1 s w)) = Microsleep.
Proof.
  cbv zeta.
  apply (proj1 (closed_frame_classification Sample.clock 0.1
                  (mkSettings true (mkThresholds 0.2 8 5) (mkDetectors true true))
                  (mkWorld (Some (Sample.clock 4)) Awake 40 40 (Sample.clock 0) 10)
                  eq_refl ltac:(unfold MIN_CLOSED_FRAMES; simpl; lia))).
  reflexivity.
Defined.

(** * Tracking settings *)

Lemma SETTINGS_KEY_refl : String.eqb SETTINGS_KEY SETTINGS_KEY = true.
Proof. apply String.eqb_refl. Qed.

(** X6. What is saved is what is read back, whatever was stored before, the
    camera flag included; saving touches no other key. *)
Theorem tracking_settings_round_trip (t : TrackingSettings) (st : Storage) :
  getTrackingSettings (saveTrackingSettings t st) = trackingObject t /\
  wantsCamera (getTrackingSettings (saveTrackingSettings t st))
  = Ok (cameraTrackingEnabled t) /\
  (forall key, key <> SETTINGS_KEY ->
     saveTrackingSettings t st key = st key).
Proof.
  assert (H : getTrackingSettings (saveTrackingSettings t st)
              = trackingObject t).
  { unfold getTrackingSettings, saveTrackingSettings, storage_get, storage_set.
    now rewrite SETTINGS_KEY_refl. }
  split; [exact H |]. split.
  - rewrite H. reflexivity.
  - intros key Hk. unfold saveTrackingSettings, storage_set.
    apply String.eqb_neq in Hk. now rewrite Hk.
Qed.

(** X7. When nothing is stored under the key, or something falsy is, the default
    is read: web tracking on, camera tracking off.  What is read is never
    falsy, so reading its camera flag never throws. *)
Theorem tracking_settings_default (st : Storage) :
  (ToBoolean (storage_get SETTINGS_KEY st) = false ->
     getTrackingSettings st = trackingObject (mkTracking true false) /\
     wantsCamera (getTrackingSettings st) = Ok false) /\
  (ToBoolean (storage_get SETTINGS_KEY st) = true ->
     getTrackingSettings st = storage_get SETTINGS_KEY st) /\
  ToBoolean (getTrackingSettings st) = true /\
  exists b, wantsCamera (getTrackingSettings st) = Ok b.
Proof.
  unfold getTrackingSettings, js_or.
  destruct (ToBoolean (storage_get SETTINGS_KEY st)) eqn:Ht.
  - repeat split; try discriminate; trivial.
    destruct (storage_get SETTINGS_KEY st); try discriminate;
      unfold wantsCamera; simpl; eauto.
  - repeat split; try discriminate; trivial. exists false. reflexivity.
Qed.

(** * The offscreen document *)

Local Open Scope string_scope.

(** Unfolds the computations of the two hosts. *)
Ltac lrun :=
  cbv [Offscreen.startDetection Offscreen.stopDetection Offscreen.onMessage
       Offscreen.startCamera Offscreen.step
       ContentScript.startCamera ContentScript.initCameraDetection
       ContentScript.shutdownCameraDetection ContentScript.onMessage
       ContentScript.detached
       stopCamera showStream openCamera
       lbind lret throw try_catch await perform lget lmodify within onWorld
       resetOnStop resetOnShutdown stopDetection shutdownCameraDetection
       bind modify ret
       Offscreen.set_world Offscreen.set_camera Offscreen.set_stopTracking
       Offscreen.set_isRunning Offscreen.world Offscreen.camera
       Offscreen.stopTracking Offscreen.isRunning
       ContentScript.set_world ContentScript.set_camera
       ContentScript.set_stopTracking ContentScript.set_isInitialized
       ContentScript.world ContentScript.camera ContentScript.stopTracking
       ContentScript.isInitialized
       set_eyesClosedStartTime set_currentAttentionState set_closedFrameCount
       set_frameCount
       stream videoElement getUserMedia play startFaceTracking streamActive
       bodyContains storageLocal
       fst snd app map negb andb released].

(** X8. [stopDetection] does nothing unless the detector is running.  When it is,
    it stops the tracker, the tracks of the stream and the video element that
    are held, in that order, forgets them, and puts the variables of the frame
    handler back to their initial values, [frameCount] included. *)
Theorem offscreen_stop_releases (st : Offscreen.State) :
  (Offscreen.isRunning st = false ->
     Offscreen.stopDetection st = (Ok tt, st, [])) /\
  (Offscreen.isRunning st = true ->
     exists w',
       Offscreen.stopDetection st
       = (Ok tt,
          Offscreen.mkState w' (mkCamera None None) None false,
          released StoppedTracking (Offscreen.stopTracking st)
          ++ released StoppedTracks (stream (Offscreen.camera st))
          ++ released RemovedVideo (videoElement (Offscreen.camera st))) /\
       eyesClosedStartTime w' = None /\
       currentAttentionState w' = Awake /\
       closedFrameCount w' = 0 /\
       frameCount w' = 0).
Proof.
  destruct st as [w [str vid] trk run]. split; intros Hr; simpl in Hr; subst.
  - reflexivity.
  - destruct str, vid, trk; lrun; eexists; (split; [reflexivity |]);
      cbn; auto.
Qed.

Ltac destruct_browser b :=
  let gum := fresh "gum" in
  let pl := fresh "pl" in
  let sft := fresh "sft" in
  let act := fresh "act" in
  let con := fresh "con" in
  let sto := fresh "sto" in
  destruct b as [gum pl sft act con sto];
  destruct gum as [?s|?e]; destruct pl as [[]|?e]; destruct sft as [[]|?e];
  destruct act; destruct con.


(** [startDetection] leaves the variables of the frame handler alone. *)
Lemma offscreen_start_world (b : Browser) (st : Offscreen.State) :
  Offscreen.world (snd (fst (Offscreen.startDetection b st)))
  = Offscreen.world st.
Proof.
  destruct st as [w [str vid] trk run].
  destruct_browser b; destruct run; reflexivity.
Qed.




(** X13. As long as no STOP_CAMERA_DETECTION arrives, [frameCount], which
    GET_CAMERA_STATUS reports, goes up by one with every frame, processed or
    not, and is left alone by every message. *)
Theorem offscreen_status_counts_frames (clock : nat -> float)
  (es : list Offscreen.Event) (st : Offscreen.State) :
  Forall (fun e => Offscreen.is_stop e = false) es ->
  frameCount (Offscreen.world (Offscreen.steps clock es st))
  = frameCount (Offscreen.world st) + length (filter Offscreen.is_frame es).
Proof.
  intros Hall. revert st. induction Hall as [|e es He _ IH]; intros st.
  - simpl. lia.
  - simpl. rewrite IH. destruct e as [type b | f].
    + cbn [Offscreen.is_frame Offscreen.is_stop] in *.
      enough (Hw : Offscreen.world (fst (Offscreen.step clock
                                           (Offscreen.Incoming type b) st))
                   = Offscreen.world st) by (rewrite Hw; reflexivity).
      unfold Offscreen.step, Offscreen.onMessage. rewrite He.
      destruct (String.eqb type "START_CAMERA_DETECTION").
      * pose proof (offscreen_start_world b st) as H.
        unfold lbind, try_catch, perform, lret.
        destruct (Offscreen.startDetection b st) as [[[[]|e] st'] o];
          exact H.
      * destruct (String.eqb type "GET_CAMERA_STATUS"); reflexivity.
    + cbn [Offscreen.is_frame filter length Offscreen.step fst
           Offscreen.world Offscreen.set_world].
      rewrite exec_frameCount. lia.
Qed.

Lemma offscreen_status_counts_frames_witness :
  let ok := mkBrowser (Ok 7) (Ok tt) (Ok tt) true true (fun _ => None) in
  let es := [Offscreen.Incoming "START_CAMERA_DETECTION" ok;
             Offscreen.Landmarks (Sample.noface Sample.armed);
             Offscreen.Landmarks (Sample.face 0.3 Sample.disarmed);
             Offscreen.Incoming "GET_CAMERA_STATUS" ok;
             Offscreen.Landmarks (Sample.face 0.1 Sample.armed)] in
  frameCount (Offscreen.world
                (Offscreen.steps Sample.clock es (Offscreen.loaded Sample.clock)))
  = 3.
Proof.
  cbv zeta.
  rewrite offscreen_status_counts_frames; [reflexivity |].
  repeat constructor.
Defined.

(** * The content script *)

(** X14. [shutdownCameraDetection] has no guard: from any state it stops the
    tracker, the tracks of the stream and the video element that are held, in
    that order, forgets them, clears [isInitialized] and puts the tracking
    variables back to their initial values; [frameCount] is not reset.  Called
    again, it does nothing. *)
Theorem content_shutdown_releases (st : ContentScript.State) :
  exists w',
    let st' := ContentScript.mkState w' (mkCamera None None) None false in
    ContentScript.shutdownCameraDetection st
    = (Ok tt, st',
       released StoppedTracking (ContentScript.stopTracking st)
       ++ released StoppedTracks (stream (ContentScript.camera st))
       ++ released RemovedVideo (videoElement (ContentScript.camera st))) /\
    eyesClosedStartTime w' = None /\
    currentAttentionState w' = Awake /\
    closedFrameCount w' = 0 /\
    frameCount w' = frameCount (ContentScript.world st) /\
    ContentScript.shutdownCameraDetection st' = (Ok tt, st', []).
Proof.
  destruct st as [w [str vid] trk ini].
  destruct str, vid, trk; lrun; eexists; cbv zeta;
    (split; [reflexivity |]); cbn; auto 10.
Qed.

(** X15. [startCamera] asks for the camera exactly when no stream is held or the
    stream held is not active, and never stops a stream.  With an active
    stream whose video element is in the document it does nothing at all;
    with an active stream whose video element is missing or out of the
    document it makes the element again, for the same stream. *)
Theorem content_camera_reuse (b : Browser) (c : Camera) :
  match ContentScript.startCamera b c with
  | (r, c', o) =>
      (In RequestedCamera o <-> stream c = None \/ streamActive b = false) /\
      (forall s, ~ In (StoppedTracks s) o) /\
      (forall s v, stream c = Some s -> streamActive b = true ->
         videoElement c = Some v -> bodyContains b = true ->
         r = Ok tt /\ c' = c /\ o = []) /\
      (forall s, stream c = Some s -> streamActive b = true ->
         videoElement c = None \/ bodyContains b = false ->
         r = play b /\ c' = mkCamera (Some s) (Some (mkVideo s)) /\
         o = [AppendedVideo (mkVideo s); PlayRequested (mkVideo s)])
  end.
Proof.
  destruct c as [str vid]. destruct_browser b; destruct str, vid; lrun;
    cbn [In];
    repeat split; intros; try discriminate; try reflexivity;
    repeat match goal with
    | H : Some _ = Some _ |- _ => injection H as <-
    | H : _ \/ _ |- _ => destruct H
    end; try discriminate; try reflexivity; try tauto;
    try (intuition discriminate).
Qed.

(** X16. [initCameraDetection] reads the stored settings, not the message that
    made the listener call it: when the stored settings do not enable camera
    tracking (nothing stored, hence the default, or the flag off), it returns
    without asking for the camera, and a TRACKING_SETTINGS_UPDATED message
    that enables camera tracking changes nothing. *)
Theorem content_init_needs_stored_consent (b : Browser)
  (st : ContentScript.State) :
  wantsCamera (getTrackingSettings (storageLocal b)) = Ok false ->
  ContentScript.initCameraDetection b st = (Ok tt, st, []) /\
  (forall payload,
     wantsCamera payload = Ok true ->
     ContentScript.onMessage "TRACKING_SETTINGS_UPDATED" payload b st
     = (Ok tt, st, [])).
Proof.
  intros Hs.
  assert (Hi : ContentScript.initCameraDetection b st = (Ok tt, st, [])).
  { destruct st as [w c trk ini].
    unfold ContentScript.initCameraDetection, lbind, lget, try_catch, await.
    cbn [ContentScript.isInitialized]. destruct ini; [reflexivity |].
    rewrite Hs. reflexivity. }
  split; [exact Hi |].
  intros payload Hp. unfold ContentScript.onMessage.
  cbn [String.eqb Ascii.eqb Bool.eqb]. unfold lbind at 1, await, lret at 1.
  rewrite Hp. unfold lbind, lget, ContentScript.detached, try_catch.
  destruct (ContentScript.isInitialized st); cbn [andb negb].
  - reflexivity.
  - now rewrite Hi.
Qed.

(** A fresh installation: nothing is stored, the message asks for the
    camera, and nothing happens. *)
Lemma content_init_needs_stored_consent_witness :
  let b := mkBrowser (Ok 7) (Ok tt) (Ok tt) true true (fun _ => None) in
  let asked := trackingObject (mkTracking true true) in
  ContentScript.onMessage "TRACKING_SETTINGS_UPDATED" asked b
    (ContentScript.loaded Sample.clock)
  = (Ok tt, ContentScript.loaded Sample.clock, []).
Proof.
  cbv zeta.
  exact (proj2 (content_init_needs_stored_consent
                  (mkBrowser (Ok 7) (Ok tt) (Ok tt) true true (fun _ => None))
                  (ContentScript.loaded Sample.clock) eq_refl)
           (trackingObject (mkTracking true true)) eq_refl).
Defined.

Lemma wantsCamera_stored (sto : Storage) :
  exists en, wantsCamera (getTrackingSettings sto) = Ok en.
Proof.
  unfold getTrackingSettings, js_or.
  destruct (ToBoolean (storage_get SETTINGS_KEY sto)) eqn:Ht.
  - destruct (storage_get SETTINGS_KEY sto); try discriminate;
      unfold wantsCamera; simpl; eauto.
  - exists false. reflexivity.
Qed.

(** X19. The listener acts on TRACKING_SETTINGS_UPDATED only, and only when the
    camera flag of the payload differs from [isInitialized]: when they agree
    nothing happens; when the flag is off and the script is initialized, the
    listener does what [shutdownCameraDetection] does.  A payload that is
    [undefined] or [null] makes the listener throw a TypeError, with nothing
    changed.  Any other message changes nothing. *)
Theorem content_listener_toggles (type : String.string) (payload : JsValue)
  (b : Browser) (st : ContentScript.State) :
  (type <> "TRACKING_SETTINGS_UPDATED" ->
     ContentScript.onMessage type payload b st = (Ok tt, st, [])) /\
  (type = "TRACKING_SETTINGS_UPDATED" ->
     (wantsCamera payload = Ok (ContentScript.isInitialized st) ->
        ContentScript.onMessage type payload b st = (Ok tt, st, [])) /\
     (wantsCamera payload = Ok false ->
      ContentScript.isInitialized st = true ->
        ContentScript.onMessage type payload b st
        = ContentScript.shutdownCameraDetection st) /\
     (payload = JUndefined \/ payload = JNull ->
        ContentScript.onMessage type payload b st
        = (Thrown TypeError, st, []))).
Proof.
  unfold ContentScript.onMessage. split.
  - intros Hne. apply String.eqb_neq in Hne. now rewrite Hne.
  - intros ->. cbn [String.eqb Ascii.eqb Bool.eqb]. split; [| split].
    + intros ->. cbv beta iota delta [lbind await lret lget].
      destruct (ContentScript.isInitialized st); reflexivity.
    + intros -> Hi. cbv beta iota delta [lbind await lret lget]. rewrite Hi.
      cbn [andb negb].
      now destruct (ContentScript.shutdownCameraDetection st) as [[r st'] o].
    + intros [-> | ->]; reflexivity.
Qed.

Lemma content_listener_toggles_witness :
  let running :=
    ContentScript.mkState Sample.asleep
      (mkCamera (Some 7) (Some (mkVideo 7)))
      (Some (mkTracker (mkVideo 7))) true in
  let b := mkBrowser (Ok 8) (Ok tt) (Ok tt) true true (fun _ => None) in
  snd (ContentScript.onMessage "TRACKING_SETTINGS_UPDATED"
         (trackingObject (mkTracking true false)) b running)
  = [StoppedTracking (mkTracker (mkVideo 7)); StoppedTracks 7;
     RemovedVideo (mkVideo 7)].
Proof.
  cbv zeta.
  rewrite (proj1 (proj2 (proj2 (content_listener_toggles
             "TRACKING_SETTINGS_UPDATED"
             (trackingObject (mkTracking true false))
             (mkBrowser (Ok 8) (Ok tt) (Ok tt) true true (fun _ => None))
             (ContentScript.mkState Sample.asleep
                (mkCamera (Some 7) (Some (mkVideo 7)))
                (Some (mkTracker (mkVideo 7))) true)) eq_refl))
             eq_refl eq_refl).
  reflexivity.
Defined.

(** A running detector is stopped: tracker, tracks and video element are
    released in that order, and the frame handler starts afresh. *)
Lemma offscreen_stop_releases_witness :
  let running :=
    Offscreen.mkState Sample.asleep (mkCamera (Some 7) (Some (mkVideo 7)))
      (Some (mkTracker (mkVideo 7))) true in
  exists w',
    Offscreen.stopDetection running
    = (Ok tt, Offscreen.mkState w' (mkCamera None None) None false,
       [StoppedTracking (mkTracker (mkVideo 7)); StoppedTracks 7;
        RemovedVideo (mkVideo 7)]) /\
    currentAttentionState Sample.asleep = Microsleep /\
    currentAttentionState w' = Awake /\ frameCount w' = 0.
Proof.
  cbv zeta.
  destruct (proj2 (offscreen_stop_releases
                     (Offscreen.mkState Sample.asleep
                        (mkCamera (Some 7) (Some (mkVideo 7)))
                        (Some (mkTracker (mkVideo 7))) true)) eq_refl)
    as (w' & Hs & _ & Ha & _ & Hf).
  exists w'. split; [exact Hs |].
  split; [vm_compute; reflexivity | split; [exact Ha | exact Hf]].
Defined.

(** * Calls that overlap

    The turns of the event loop, in any order. *)

Section Turns.

Variable clock : nat -> float.

Lemma counted_inv (w : World) : tracking_inv w -> tracking_inv (counted clock w).
Proof.
  unfold tracking_inv.
  now destruct (counted_fields clock w) as (-> & -> & ->).
Qed.

(** The debounce invariant does not need the frame to have been counted just
    before: the part of the handler that follows the await keeps it from any
    state that has it. *)
Lemma handleSettled_inv (lm : option FaceLandmarks)
  (r : Result AttentionSettings) (w : World) :
  tracking_inv w -> tracking_inv (snd (fst (handleSettled clock lm r w))).
Proof.
  intros [Hlatch Hawake]. unfold handleSettled.
  destruct r as [s|e]; [| now split].
  destruct (enabled s); cbn [negb]; [| now split].
  unfold tracking_inv. destruct lm as [lm|].
  - destruct (withFace_outcome clock lm s w) as (Hst & Hs & Hn & _).
    rewrite Hst, Hs, Hn. clear Hst Hs Hn.
    destruct (averageEAR lm <? earThreshold (thresholds s))%float eqn:Hc.
    + destruct (determine_closed clock _ _ w Hc) as [-> ->]. unfold latched.
      destruct (MIN_CLOSED_FRAMES <=? S (closedFrameCount w)) eqn:Hle.
      * apply Nat.leb_le in Hle.
        split; [split; intros; [trivial | discriminate] |]. intros Hlt. lia.
      * apply Nat.leb_gt in Hle. split; [rewrite Hlatch; lia |]. intros _.
        pose proof (determine_elevated clock (averageEAR lm) s w) as H.
        cbv zeta in H.
        destruct (fst (fst (determineAttentionState clock (averageEAR lm) s w)));
          trivial; destruct H as (_ & H & _); try discriminate;
          unfold MIN_CLOSED_FRAMES in *; lia.
    + rewrite (determine_open clock _ _ _ Hc). simpl.
      unfold MIN_CLOSED_FRAMES. split; [split |]; intros; trivial;
        try congruence; lia.
  - rewrite noFace_count, noFace_start. unfold latched.
    destruct (MIN_CLOSED_FRAMES <=? S (closedFrameCount w)) eqn:Hle.
    + apply Nat.leb_le in Hle.
      split; [split; intros; [trivial | discriminate] |]. intros Hlt. lia.
    + apply Nat.leb_gt in Hle. split; [rewrite Hlatch; lia |]. intros _.
      rewrite (noFace_early clock s w Hle). simpl. apply Hawake.
      unfold MIN_CLOSED_FRAMES in *. lia.
Qed.

(** A frame that nothing interrupts: counting it and settling its settings
    is [handleLandmarks]. *)
Lemma handleSettled_counted (lm : option FaceLandmarks) (s : AttentionSettings)
  (w : World) :
  handleSettled clock lm (Ok s) (counted clock w) = handleLandmarks clock lm s w.
Proof.
  unfold handleLandmarks, handleSettled.
  now rewrite bind_silent by apply countFrame_silent.
Qed.

Lemma reset_inv (w : World) :
  tracking_inv (snd (fst (shutdownCameraDetection w))) /\
  tracking_inv (snd (fst (stopDetection w))).
Proof.
  destruct (stop_resets w) as ((E1 & E2 & E3 & _) & (F1 & F2 & F3 & _)).
  unfold tracking_inv, MIN_CLOSED_FRAMES.
  rewrite E1, E2, E3, F1, F2, F3.
  repeat split; intros; trivial; try congruence; lia.
Qed.

Lemma stopCamera_state (c : Camera) :
  snd (fst (stopCamera c)) = mkCamera None None.
Proof. destruct c as [[s|] [v|]]; reflexivity. Qed.

Lemma offscreen_stop_state (st : Offscreen.State) :
  snd (fst (Offscreen.stopDetection st))
  = if Offscreen.isRunning st
    then Offscreen.mkState (snd (fst (stopDetection (Offscreen.world st))))
           (mkCamera None None) None false
    else st.
Proof.
  destruct st as [w [str vid] trk run].
  destruct run, str, vid, trk; reflexivity.
Qed.

Lemma content_shutdown_state (st : ContentScript.State) :
  snd (fst (ContentScript.shutdownCameraDetection st))
  = ContentScript.mkState
      (snd (fst (shutdownCameraDetection (ContentScript.world st))))
      (mkCamera None None) None false.
Proof.
  destruct st as [w [str vid] trk ini].
  destruct str, vid, trk; reflexivity.
Qed.

Lemma offscreen_turn_steady (t : OffscreenTurns.Turn) (d : OffscreenTurns.Doc) :
  OffscreenTurns.steady (OffscreenTurns.vars d) ->
  OffscreenTurns.steady
    (OffscreenTurns.vars (fst (OffscreenTurns.turn clock t d))).
Proof.
  destruct d as [st pend]. cbn [OffscreenTurns.vars].
  intros Hst. pose proof Hst as (Hp & Hr & Hw).
  destruct t as [type | lm | i r | i r tracking | i r];
    unfold OffscreenTurns.turn;
    cbn [OffscreenTurns.vars OffscreenTurns.pending].
  - destruct (String.eqb type "START_CAMERA_DETECTION").
    { destruct (Offscreen.isRunning st); exact Hst. }
    destruct (String.eqb type "STOP_CAMERA_DETECTION").
    + pose proof (offscreen_stop_state st) as Hs.
      destruct (Offscreen.stopDetection st) as [[x st'] o].
      cbn [fst snd OffscreenTurns.vars] in *. subst st'.
      destruct (Offscreen.isRunning st); [| exact Hst].
      split; [exact I | split; [reflexivity | apply reset_inv]].
    + destruct (String.eqb type "GET_CAMERA_STATUS"); exact Hst.
  - destruct st as [w c trk run].
    split; [exact Hp | split; [exact Hr |]]. now apply counted_inv.
  - destruct (take i pend) as [[[| |lm] rest]|]; try exact Hst.
    destruct r as [s|e]; [| exact Hst].
    destruct st as [w c trk run].
    split; [reflexivity | split; [| exact Hw]].
    cbn in *. destruct run; [split; [apply Hr | discriminate] | exact Hr].
  - destruct (take i pend) as [[[| |lm] rest]|]; try exact Hst.
    destruct r as [[]|e]; [| exact Hst].
    destruct st as [w [str vid] trk run]. cbn [Offscreen.camera videoElement].
    destruct vid as [v|]; [| exact Hst].
    destruct tracking as [[]|e]; [| exact Hst].
    split; [exact Hp | split; [| exact Hw]].
    cbn in *. destruct str; [split; discriminate | contradiction].
  - destruct (take i pend) as [[[| |lm] rest]|]; try exact Hst.
    pose proof (handleSettled_inv lm r (Offscreen.world st) Hw) as Hi.
    destruct (handleSettled clock lm r (Offscreen.world st)) as [[x w'] ms].
    destruct st as [w c trk run].
    split; [exact Hp | split; [exact Hr | exact Hi]].
Qed.

Lemma offscreen_turns_steady (ts : list OffscreenTurns.Turn)
  (d : OffscreenTurns.Doc) :
  OffscreenTurns.steady (OffscreenTurns.vars d) ->
  OffscreenTurns.steady
    (OffscreenTurns.vars (fst (OffscreenTurns.turns clock ts d))).
Proof.
  revert d. induction ts as [|t ts IH]; intros d Hd; [exact Hd |].
  pose proof (offscreen_turn_steady t d Hd) as H1.
  cbn [OffscreenTurns.turns].
  destruct (OffscreenTurns.turn clock t d) as [d1 o1]. cbn [fst] in H1.
  specialize (IH d1 H1).
  now destruct (OffscreenTurns.turns clock ts d1) as [d2 o2].
Qed.

Lemma content_beginCamera_sound (b : Browser) (st : ContentScript.State)
  (rest : list ContentTurns.Task) :
  ContentTurns.sound st ->
  ContentTurns.sound
    (ContentTurns.vars (fst (fst (ContentTurns.beginCamera b st rest)))).
Proof.
  intros Hst. pose proof Hst as [Hp Hw].
  destruct st as [w [str vid] trk ini]. unfold ContentTurns.beginCamera.
  cbn [ContentScript.camera stream videoElement].
  destruct str as [s|]; [| exact Hst].
  destruct (streamActive b); [| exact Hst].
  destruct vid as [v|];
    [destruct (bodyContains b); [exact Hst |] |];
    (split; [reflexivity | exact Hw]).
Qed.

Lemma content_afterCamera_sound (tracking : Result unit)
  (st : ContentScript.State) (rest : list ContentTurns.Task) :
  ContentTurns.sound st ->
  ContentTurns.sound
    (ContentTurns.vars (fst (fst (ContentTurns.afterCamera tracking st rest)))).
Proof.
  intros Hst. pose proof Hst as [Hp Hw].
  destruct st as [w [str vid] trk ini]. unfold ContentTurns.afterCamera.
  cbn [ContentScript.camera videoElement].
  destruct vid as [v|]; [| exact Hst].
  destruct tracking as [[]|e]; [split; [exact Hp | exact Hw] |].
  destruct str; (split; [exact I | exact Hw]).
Qed.

Lemma content_turn_sound (t : ContentTurns.Turn) (p : ContentTurns.Page) :
  ContentTurns.sound (ContentTurns.vars p) ->
  ContentTurns.sound
    (ContentTurns.vars (fst (fst (ContentTurns.turn clock t p)))).
Proof.
  destruct p as [st pend]. cbn [ContentTurns.vars].
  intros Hst. pose proof Hst as [Hp Hw].
  assert (Hinit : ContentTurns.sound
                    (ContentTurns.vars
                       (fst (fst (ContentTurns.beginInit
                                    (ContentTurns.mkPage st pend)))))).
  { unfold ContentTurns.beginInit. cbn [ContentTurns.vars].
    destruct (ContentScript.isInitialized st); exact Hst. }
  assert (Hshut : ContentTurns.sound
                    (snd (fst (ContentScript.shutdownCameraDetection st)))).
  { rewrite content_shutdown_state. split; [exact I | apply reset_inv]. }
  destruct t as [type payload | | | lm | i r b | i r | i r tracking
                | i tracking | i | i r];
    unfold ContentTurns.turn;
    cbn [ContentTurns.vars ContentTurns.pending].
  - destruct (String.eqb type "TRACKING_SETTINGS_UPDATED"); [| exact Hst].
    destruct (wantsCamera payload) as [en|e]; [| exact Hst].
    destruct (en && negb (ContentScript.isInitialized st)); [exact Hinit |].
    destruct (negb en && ContentScript.isInitialized st); [| exact Hst].
    now destruct (ContentScript.shutdownCameraDetection st) as [[x st'] o].
  - exact Hinit.
  - now destruct (ContentScript.shutdownCameraDetection st) as [[x st'] o].
  - destruct st as [w c trk ini].
    split; [exact Hp |]. now apply counted_inv.
  - destruct (take i pend) as [[[| | | | |lm] rest]|]; try exact Hst.
    destruct r as [items|e]; [| exact Hst].
    destruct (wantsCamera (getTrackingSettings items)) as [[]|e];
      try exact Hst.
    now apply content_beginCamera_sound.
  - destruct (take i pend) as [[[| | | | |lm] rest]|]; try exact Hst.
    destruct r as [s|e]; [| exact Hst].
    destruct st as [w c trk ini]. split; [reflexivity | exact Hw].
  - destruct (take i pend) as [[[| | | | |lm] rest]|]; try exact Hst.
    destruct r as [[]|e]; [| exact Hst].
    now apply content_afterCamera_sound.
  - destruct (take i pend) as [[[| | | | |lm] rest]|]; try exact Hst.
    now apply content_afterCamera_sound.
  - destruct (take i pend) as [[[| | | | |lm] rest]|]; exact Hst.
  - destruct (take i pend) as [[[| | | | |lm] rest]|]; try exact Hst.
    pose proof (handleSettled_inv lm r (ContentScript.world st) Hw) as Hi.
    destruct (handleSettled clock lm r (ContentScript.world st))
      as [[x w'] ms].
    destruct st as [w c trk ini]. split; [exact Hp | exact Hi].
Qed.

Lemma content_turns_sound_from (ts : list ContentTurns.Turn)
  (p : ContentTurns.Page) :
  ContentTurns.sound (ContentTurns.vars p) ->
  ContentTurns.sound
    (ContentTurns.vars (fst (fst (ContentTurns.turns clock ts p)))).
Proof.
  revert p. induction ts as [|t ts IH]; intros p Hp; [exact Hp |].
  pose proof (content_turn_sound t p Hp) as H1.
  cbn [ContentTurns.turns].
  destruct (ContentTurns.turn clock t p) as [[p1 o1] e1]. cbn [fst] in H1.
  specialize (IH p1 H1).
  now destruct (ContentTurns.turns clock ts p1) as [[p2 o2] e2].
Qed.

End Turns.

(** ** Calls that nothing interrupts

    When the turns of one call follow each other with nothing in between,
    they do what the call does when it is run to its end. *)

Lemma take_first {A : Type} (x : A) : take 0 ([] ++ [x]) = Some (x, []).
Proof. reflexivity. Qed.

Lemma offscreen_frame_uninterrupted (clock : nat -> float) (f : Frame)
  (st : Offscreen.State) :
  OffscreenTurns.turns clock
    [OffscreenTurns.Frame (landmarks f);
     OffscreenTurns.SettingsSettle 0 (Ok (settings f))]
    (OffscreenTurns.mkDoc st [])
  = (OffscreenTurns.mkDoc
       (fst (Offscreen.step clock (Offscreen.Landmarks f) st)) [],
     snd (Offscreen.step clock (Offscreen.Landmarks f) st)).
Proof.
  destruct st as [w c trk run].
  cbn [OffscreenTurns.turns OffscreenTurns.turn OffscreenTurns.vars
       OffscreenTurns.pending Offscreen.step fst snd Offscreen.world
       Offscreen.set_world Offscreen.camera Offscreen.stopTracking
       Offscreen.isRunning].
  rewrite take_first, handleSettled_counted. unfold exec, emitted.
  destruct (handleLandmarks clock (landmarks f) (settings f) w) as [[x w'] ms].
  cbn. now rewrite app_nil_r.
Qed.

Lemma offscreen_start_uninterrupted (clock : nat -> float) (b : Browser)
  (st : Offscreen.State) :
  OffscreenTurns.turns clock
    [OffscreenTurns.Message "START_CAMERA_DETECTION";
     OffscreenTurns.CameraSettles 0 (getUserMedia b);
     OffscreenTurns.PlaySettles 0 (play b) (startFaceTracking b)]
    (OffscreenTurns.mkDoc st [])
  = match Offscreen.onMessage "START_CAMERA_DETECTION" b st with
    | (_, st', o) => (OffscreenTurns.mkDoc st' [], o)
    end.
Proof.
  destruct st as [w [str vid] trk run].
  destruct_browser b; destruct run; reflexivity.
Qed.

Lemma content_init_uninterrupted (clock : nat -> float) (b : Browser)
  (st : ContentScript.State) :
  ContentTurns.turns clock
    [ContentTurns.CallInit;
     ContentTurns.StorageSettles 0 (Ok (storageLocal b)) b;
     ContentTurns.CameraSettles 0 (getUserMedia b);
     ContentTurns.PlaySettles 0 (play b) (startFaceTracking b);
     ContentTurns.ReturnSettles 0 (startFaceTracking b);
     ContentTurns.TimerFires 0]
    (ContentTurns.mkPage st [])
  = match ContentScript.initCameraDetection b st with
    | (r, st', o) => (ContentTurns.mkPage st' [], o, [r])
    end.
Proof.
  destruct st as [w [str vid] trk ini].
  destruct ini; [reflexivity |].
  destruct (wantsCamera_stored (storageLocal b)) as [en Hen].
  unfold ContentScript.initCameraDetection.
  cbn [ContentTurns.turns ContentTurns.turn ContentTurns.beginInit
       ContentTurns.vars ContentTurns.pending ContentScript.isInitialized
       app take].
  cbv beta iota delta [lbind lget try_catch await].
  cbn [ContentScript.isInitialized]. rewrite Hen.
  destruct en; [| reflexivity].
  destruct_browser b; destruct str, vid; reflexivity.
Qed.

(** ** What overlapping calls keep, and what they do not *)

(** X12. Whatever messages and frames reach the offscreen document, and in
    whatever order the browser settles what [startDetection] and
    [handleLandmarks] await: [stream] and [videoElement] are set together,
    the element showing the stream; while [isRunning] is set, [stopTracking]
    and [stream] are set; while it is not, [stopTracking] is null; and the
    debounce invariant of the frame handler holds. *)
Theorem offscreen_turns_invariant (clock : nat -> float)
  (ts : list OffscreenTurns.Turn) :
  OffscreenTurns.steady
    (OffscreenTurns.vars
       (fst (OffscreenTurns.turns clock ts (OffscreenTurns.loaded clock)))).
Proof.
  apply offscreen_turns_steady.
  split; [exact I | split; [reflexivity | apply tracking_inv_initial]].
Qed.

(** X17. How a call of [initCameraDetection] ends, at the turn in which it
    ends.  It returns when it is called on an initialized script, when the
    stored settings do not enable the camera, both with nothing changed, or
    when the timer fires, and then [isInitialized] is set whatever has become
    of the camera meanwhile.  It throws what the storage, [getUserMedia] or
    [play] rejected with, nothing changed; or "Video element not created"
    when [videoElement] is null once the camera has started, nothing changed;
    or the CSP error when [startFaceTracking] throws, the camera being
    released first.  A call that throws leaves [isInitialized] as it is. *)
Theorem content_init_endings (clock : nat -> float) (t : ContentTurns.Turn)
  (p p' : ContentTurns.Page) (o : list Effect) (r : Result unit) :
  ContentTurns.turn clock t p = (p', o, Some r) ->
  let st := ContentTurns.vars p in
  let st' := ContentTurns.vars p' in
  match r with
  | Ok _ =>
      (t = ContentTurns.CallInit /\ ContentScript.isInitialized st = true /\
       st' = st /\ o = [])
      \/ (exists i items b,
            t = ContentTurns.StorageSettles i (Ok items) b /\
            wantsCamera (getTrackingSettings items) = Ok false /\
            st' = st /\ o = [])
      \/ (exists i,
            t = ContentTurns.TimerFires i /\
            st' = ContentScript.set_isInitialized true st /\ o = [])
  | Thrown e =>
      ContentScript.isInitialized st' = ContentScript.isInitialized st /\
      ((ContentTurns.rejection t = Some e /\ st' = st /\ o = [])
       \/ (e = Error "Video element not created" /\
           videoElement (ContentScript.camera st) = None /\
           st' = st /\ o = [])
       \/ (e = Error ContentScript.CSP_MESSAGE /\
           exists v,
             videoElement (ContentScript.camera st) = Some v /\
             st' = ContentScript.set_camera (mkCamera None None) st /\
             o = StartedTracking v
                 :: released StoppedTracks (stream (ContentScript.camera st))
                 ++ [RemovedVideo v]))
  end.
Proof.
  destruct p as [st pend]. intros H. cbv zeta. cbn [ContentTurns.vars].
  assert (Hafter : forall tracking rest,
            ContentTurns.afterCamera tracking st rest = (p', o, Some r) ->
            exists e, r = Thrown e /\
              ContentScript.isInitialized (ContentTurns.vars p')
              = ContentScript.isInitialized st /\
              ((e = Error "Video element not created" /\
                videoElement (ContentScript.camera st) = None /\
                ContentTurns.vars p' = st /\ o = [])
               \/ (e = Error ContentScript.CSP_MESSAGE /\
                   exists v,
                     videoElement (ContentScript.camera st) = Some v /\
                     ContentTurns.vars p'
                     = ContentScript.set_camera (mkCamera None None) st /\
                     o = StartedTracking v
                         :: released StoppedTracks
                              (stream (ContentScript.camera st))
                         ++ [RemovedVideo v]))).
  { intros tracking rest. destruct st as [w [str vid] trk ini].
    unfold ContentTurns.afterCamera. cbn [ContentScript.camera videoElement].
    destruct vid as [v|].
    - destruct tracking as [[]|e]; [discriminate |].
      destruct str; cbn; intros E; injection E as <- <- <-;
        eexists; (split; [reflexivity |]); (split; [reflexivity |]);
        right; (split; [reflexivity |]); exists v; auto.
    - intros E; injection E as <- <- <-.
      eexists; (split; [reflexivity |]); (split; [reflexivity |]);
        left; auto. }
  assert (Hbegin : ContentTurns.beginInit (ContentTurns.mkPage st pend)
                   = (p', o, Some r) ->
                   ContentScript.isInitialized st = true /\
                   r = Ok tt /\ ContentTurns.vars p' = st /\ o = []).
  { unfold ContentTurns.beginInit. cbn [ContentTurns.vars].
    destruct (ContentScript.isInitialized st); [| discriminate].
    intros E; injection E as <- <- <-. auto. }
  destruct t as [type payload | | | lm | i r0 b | i r0 | i r0 tracking
                | i tracking | i | i r0];
    unfold ContentTurns.turn in H;
    cbn [ContentTurns.vars ContentTurns.pending] in H.
  - destruct (String.eqb type "TRACKING_SETTINGS_UPDATED"); [| discriminate].
    destruct (wantsCamera payload) as [en|e]; [| discriminate].
    destruct (ContentScript.isInitialized st) eqn:Hi;
      destruct en; cbn [andb negb] in H; try discriminate.
    + now destruct (ContentScript.shutdownCameraDetection st) as [[x st'] o'].
    + apply Hbegin in H. destruct H as (H & _). congruence.
  - apply Hbegin in H. destruct H as (Hi & -> & Hs & ->). left. auto.
  - now destruct (ContentScript.shutdownCameraDetection st) as [[x st'] o'].
  - discriminate.
  - destruct (take i pend) as [[[| | | | |lm] rest]|]; try discriminate.
    destruct r0 as [items|e].
    + destruct (wantsCamera_stored items) as [en Hen].
      rewrite Hen in H. destruct en.
      * exfalso. revert H. unfold ContentTurns.beginCamera.
        destruct (stream (ContentScript.camera st));
          [destruct (streamActive b);
           [destruct (videoElement (ContentScript.camera st));
            [destruct (bodyContains b) |] |] |]; discriminate.
      * injection H as <- <- <-. right; left. exists i, items, b. auto.
    + injection H as <- <- <-. split; [reflexivity |]. left. auto.
  - destruct (take i pend) as [[[| | | | |lm] rest]|]; try discriminate.
    destruct r0 as [s|e]; [discriminate |].
    injection H as <- <- <-. split; [reflexivity |]. left. auto.
  - destruct (take i pend) as [[[| | | | |lm] rest]|]; try discriminate.
    destruct r0 as [[]|e].
    + apply Hafter in H. destruct H as (e & -> & Hi & [H | H]); auto.
    + injection H as <- <- <-. split; [reflexivity |]. left. auto.
  - destruct (take i pend) as [[[| | | | |lm] rest]|]; try discriminate.
    apply Hafter in H. destruct H as (e & -> & Hi & [H | H]); auto.
  - destruct (take i pend) as [[[| | | | |lm] rest]|]; try discriminate.
    injection H as <- <- <-. right; right. exists i. auto.
  - destruct (take i pend) as [[[| | | | |lm] rest]|]; try discriminate.
    now destruct (handleSettled clock lm r0 (ContentScript.world st))
      as [[x w'] ms].
Qed.

(** The camera is released while the video starts to play: the call that was
    waiting finds no video element. *)
Lemma content_init_endings_witness :
  let b := mkBrowser (Ok 7) (Ok tt) (Ok tt) true true (fun _ => None) in
  let stored := saveTrackingSettings (mkTracking true true) (fun _ => None) in
  let p := fst (fst (ContentTurns.turns Sample.clock
                       [ContentTurns.CallInit;
                        ContentTurns.StorageSettles 0 (Ok stored) b;
                        ContentTurns.CameraSettles 0 (Ok 7);
                        ContentTurns.CallShutdown]
                       (ContentTurns.loaded Sample.clock))) in
  ContentTurns.turn Sample.clock
    (ContentTurns.PlaySettles 0 (Ok tt) (Ok tt)) p
  = (ContentTurns.mkPage (ContentTurns.vars p) [], [],
     Some (Thrown (Error "Video element not created"))) /\
  videoElement (ContentScript.camera (ContentTurns.vars p)) = None /\
  ContentScript.isInitialized (ContentTurns.vars p) = false.
Proof.
  cbv zeta. split; [reflexivity |].
  pose proof (content_init_endings Sample.clock
                (ContentTurns.PlaySettles 0 (Ok tt) (Ok tt))
                (fst (fst (ContentTurns.turns Sample.clock
                   [ContentTurns.CallInit;
                    ContentTurns.StorageSettles 0
                      (Ok (saveTrackingSettings (mkTracking true true)
                             (fun _ => None)))
                      (mkBrowser (Ok 7) (Ok tt) (Ok tt) true true
                         (fun _ => None));
                    ContentTurns.CameraSettles 0 (Ok 7);
                    ContentTurns.CallShutdown]
                   (ContentTurns.loaded Sample.clock))))
                _ _ _ eq_refl) as H.
  cbv zeta in H. destruct H as [_ [(H & _) | [(_ & H & _) | (H & _)]]].
  - discriminate H.
  - split; [exact H | reflexivity].
  - discriminate H.
Defined.

(** X18. Whatever is called in the content script, whatever messages and frames
    reach it, and in whatever order the browser settles what
    [initCameraDetection] and [handleLandmarks] await: [stream] and
    [videoElement] are set together, the element showing the stream, and the
    debounce invariant of the frame handler holds. *)
Theorem content_turns_invariant (clock : nat -> float)
  (ts : list ContentTurns.Turn) :
  ContentTurns.sound
    (ContentTurns.vars
       (fst (fst (ContentTurns.turns clock ts (ContentTurns.loaded clock))))).
Proof.
  apply content_turns_sound_from.
  split; [exact I | apply tracking_inv_initial].
Qed.

(** X20. Two START_CAMERA_DETECTION messages, the second arriving before the
    first has its camera.  The first call starts the tracker on its video and
    sets [isRunning]; the second then gets a stream of its own, which takes
    the place of the first in [stream] and [videoElement], and fails to play
    it.  The detector is running, the tracker works on a video that is no
    longer held, and STOP_CAMERA_DETECTION stops the second stream only: the
    tracks of the first are never stopped. *)
Theorem offscreen_overlapping_starts (clock : nat -> float) :
  exists ts,
    let r := OffscreenTurns.turns clock ts (OffscreenTurns.loaded clock) in
    let st := OffscreenTurns.vars (fst r) in
    OffscreenTurns.pending (fst r) = [] /\
    Offscreen.isRunning st = true /\
    Offscreen.stopTracking st = Some (mkTracker (mkVideo 7)) /\
    Offscreen.camera st = mkCamera (Some 8) (Some (mkVideo 8)) /\
    responses (snd r)
    = [Responded Success; Responded (Failure (Error "AbortError"))] /\
    ~ In (StoppedTracks 7) (snd r) /\
    snd (Offscreen.stopDetection st)
    = [StoppedTracking (mkTracker (mkVideo 7)); StoppedTracks 8;
       RemovedVideo (mkVideo 8)].
Proof.
  exists [OffscreenTurns.Message "START_CAMERA_DETECTION";
          OffscreenTurns.Message "START_CAMERA_DETECTION";
          OffscreenTurns.CameraSettles 0 (Ok 7);
          OffscreenTurns.PlaySettles 1 (Ok tt) (Ok tt);
          OffscreenTurns.CameraSettles 0 (Ok 8);
          OffscreenTurns.PlaySettles 0 (Thrown (Error "AbortError")) (Ok tt)].
  cbv zeta. repeat split.
  cbn. intros H.
  repeat (destruct H as [H | H]; [discriminate H |]). exact H.
Qed.

(** X21. [shutdownCameraDetection] during the two seconds that
    [initCameraDetection] waits after it has started the tracker: the
    shutdown releases the tracker and the camera, and the call, going on when
    the timer fires, returns normally and sets [isInitialized].  The script
    is then initialized with no stream, no video element and no tracker. *)
Theorem content_init_outlives_shutdown (clock : nat -> float) :
  exists ts,
    let r := ContentTurns.turns clock ts (ContentTurns.loaded clock) in
    let st := ContentTurns.vars (fst (fst r)) in
    ContentTurns.pending (fst (fst r)) = [] /\
    snd r = [Ok tt] /\
    ContentScript.isInitialized st = true /\
    ContentScript.camera st = mkCamera None None /\
    ContentScript.stopTracking st = None /\
    snd (fst r)
    = [RequestedCamera; AppendedVideo (mkVideo 7); PlayRequested (mkVideo 7);
       StartedTracking (mkVideo 7);
       StoppedTracking (mkTracker (mkVideo 7)); StoppedTracks 7;
       RemovedVideo (mkVideo 7)].
Proof.
  exists [ContentTurns.CallInit;
          ContentTurns.StorageSettles 0
            (Ok (saveTrackingSettings (mkTracking true true) (fun _ => None)))
            (mkBrowser (Ok 7) (Ok tt) (Ok tt) true true (fun _ => None));
          ContentTurns.CameraSettles 0 (Ok 7);
          ContentTurns.PlaySettles 0 (Ok tt) (Ok tt);
          ContentTurns.CallShutdown;
          ContentTurns.TimerFires 0].
  cbv zeta. repeat split.
Qed.

Local Close Scope string_scope.
